(** * ptrcmp: comparisons between pointers to basic types

    A shallow embedding of the analyzer of [main.go] (and of its variant
    that dispatches to [Visit]) together with the parts of [go/token],
    [go/types], [go/ast], [inspector] and [analysis] that the analyzer
    calls.  Library code is modelled after its documented behaviour; the
    functions of the repository are transcribed from their source text. *)

From Stdlib Require Import ZArith List String Ascii Bool Lia DecimalString Sorted.
Import ListNotations.
Open Scope string_scope.
Open Scope Z_scope.
Set Warnings "-register-all".

(* ================================================================== *)
(** ** go/token *)

Module token.

(** [token.Pos]: a compact source position, an integer; [NoPos] is 0. *)
Definition Pos := Z.
Definition NoPos : Pos := 0.

(** [token.Token]: the operator tokens that can label a unary or a
    binary expression, and the literal classes carried by [BasicLit]. *)
Inductive Token : Set :=
| ILLEGAL
| INT | FLOAT | IMAG | CHAR | STRING
| ADD | SUB | MUL | QUO | REM
| AND | OR | XOR | SHL | SHR | AND_NOT
| LAND | LOR | ARROW
| EQL | LSS | GTR | NOT
| NEQ | LEQ | GEQ
| ASSIGN | DEFINE
| VAR | CONST.

Definition Token_eq_dec (a b : Token) : {a = b} + {a <> b}.
Proof. decide equality. Defined.

(** [token.Position]: the printable form of a position. *)
Record Position : Set := mkPosition {
  Filename : string;
  Offset : Z;
  Line : Z;
  Column : Z
}.

(** [token.FileSet], seen through its only method used here,
    [Position(p)]. *)
Record FileSet : Type := mkFileSet {
  Position_of : Pos -> Position
}.

End token.

(* ================================================================== *)
(** ** go/ast: the syntax tree *)

Module ast.

(** [*ast.Ident]. *)
Record Ident : Set := mkIdent {
  NamePos : token.Pos;
  Name : string
}.

(** [ast.Expr]: the expression nodes, each with the fields of its Go
    struct.  A node pointer is identified with the node's content, which
    carries its source positions. *)
Inductive Expr : Type :=
| BadExpr (From To : token.Pos)
| Ident_ (id : Ident)
| BasicLit (ValuePos : token.Pos) (Kind : token.Token) (Value : string)
| ParenExpr (Lparen : token.Pos) (X : Expr) (Rparen : token.Pos)
| SelectorExpr (X : Expr) (Sel : Ident)
| IndexExpr (X : Expr) (Lbrack : token.Pos) (Index : Expr)
    (Rbrack : token.Pos)
| CallExpr (Fun : Expr) (Lparen : token.Pos) (Args : list Expr)
    (Rparen : token.Pos)
| StarExpr (Star : token.Pos) (X : Expr)
| UnaryExpr (OpPos : token.Pos) (Op : token.Token) (X : Expr)
| BinaryExpr (X : Expr) (OpPos : token.Pos) (Op : token.Token) (Y : Expr).

(** [*ast.Field] and [*ast.FieldList] (parameters and results). *)
Record Field : Type := mkField {
  Field_Names : list Ident;
  Field_Type : Expr
}.

Record FieldList : Type := mkFieldList {
  Opening : token.Pos;
  List_ : list Field;
  Closing : token.Pos
}.

(** [*ast.FuncType]. *)
Record FuncType : Type := mkFuncType {
  Func : token.Pos;
  Params : FieldList;
  Results : option FieldList
}.

(** [*ast.ValueSpec] and the [*ast.GenDecl] of a [var] or [const]
    declaration. *)
Record ValueSpec : Type := mkValueSpec {
  Names : list Ident;
  Type_ : option Expr;
  Values : list Expr
}.

Record GenDecl : Type := mkGenDecl {
  TokPos : token.Pos;
  Tok : token.Token;
  GenDecl_Lparen : token.Pos;
  Specs : list ValueSpec;
  GenDecl_Rparen : token.Pos
}.

(** [ast.Stmt]. *)
Inductive Stmt : Type :=
| ExprStmt (X : Expr)
| AssignStmt (Lhs : list Expr) (TokPos : token.Pos) (Tok : token.Token)
    (Rhs : list Expr)
| DeclStmt (Decl : GenDecl)
| ReturnStmt (Return : token.Pos) (Results : list Expr)
| BlockStmt (Lbrace : token.Pos) (List : list Stmt) (Rbrace : token.Pos)
| IfStmt (If : token.Pos) (Init : option Stmt) (Cond : Expr) (Body : Stmt)
    (Else : option Stmt)
| ForStmt (For : token.Pos) (Init : option Stmt) (Cond : option Expr)
    (Post : option Stmt) (Body : Stmt).

(** [ast.Decl]. *)
Inductive Decl : Type :=
| GenDecl_ (d : GenDecl)
| FuncDecl (Name : Ident) (Type_ : FuncType) (Body : option Stmt).

(** [*ast.File]. *)
Record File : Type := mkFile {
  Package : token.Pos;
  File_Name : Ident;
  Decls : list Decl
}.

(** [ast.Node]: an interface value, either nil or a pointer to a node of
    one of the kinds above. *)
Inductive Node : Type :=
| NilNode
| ExprNode (e : Expr)
| FieldNode (f : Field)
| FieldListNode (l : FieldList)
| FuncTypeNode (t : FuncType)
| SpecNode (s : ValueSpec)
| StmtNode (s : Stmt)
| DeclNode (d : Decl)
| FileNode (f : File).

(** [e.Pos()] and [e.End()], per node kind. *)
Definition Ident_End (id : Ident) : token.Pos :=
  NamePos id + Z.of_nat (String.length (Name id)).

Fixpoint Pos (e : Expr) : token.Pos :=
  match e with
  | BadExpr from _ => from
  | Ident_ id => NamePos id
  | BasicLit p _ _ => p
  | ParenExpr lp _ _ => lp
  | SelectorExpr x _ => Pos x
  | IndexExpr x _ _ _ => Pos x
  | CallExpr f _ _ _ => Pos f
  | StarExpr star _ => star
  | UnaryExpr p _ _ => p
  | BinaryExpr x _ _ _ => Pos x
  end.

Fixpoint End (e : Expr) : token.Pos :=
  match e with
  | BadExpr _ to => to
  | Ident_ id => Ident_End id
  | BasicLit p _ v => p + Z.of_nat (String.length v)
  | ParenExpr _ _ rp => rp + 1
  | SelectorExpr _ sel => Ident_End sel
  | IndexExpr _ _ _ rb => rb + 1
  | CallExpr _ _ _ rp => rp + 1
  | StarExpr _ x => End x
  | UnaryExpr _ _ x => End x
  | BinaryExpr _ _ _ y => End y
  end.

(** [p.IsValid()]. *)
Definition IsValid (p : token.Pos) : bool := negb (p =? token.NoPos).

(** [Pos()] and [End()] of the other nodes.  Where Go indexes a list
    ([Names[0]], [Lhs[0]], the last of [Rhs]) the list is taken to be
    non-empty, as the parser builds it; [NoPos] stands for the panic. *)
Definition Field_Pos (f : Field) : token.Pos :=
  match Field_Names f with
  | id :: _ => NamePos id
  | [] => Pos (Field_Type f)
  end.

Definition Field_End (f : Field) : token.Pos := End (Field_Type f).

Definition FieldList_Pos (l : FieldList) : token.Pos :=
  if IsValid (Opening l) then Opening l
  else match List_ l with
       | f :: _ => Field_Pos f
       | [] => token.NoPos
       end.

Definition FieldList_End (l : FieldList) : token.Pos :=
  if IsValid (Closing l) then Closing l + 1
  else last (map Field_End (List_ l)) token.NoPos.

Definition FuncType_Pos (t : FuncType) : token.Pos :=
  if IsValid (Func t) then Func t else FieldList_Pos (Params t).

Definition FuncType_End (t : FuncType) : token.Pos :=
  match Results t with
  | Some r => FieldList_End r
  | None => FieldList_End (Params t)
  end.

Definition ValueSpec_Pos (s : ValueSpec) : token.Pos :=
  hd token.NoPos (map NamePos (Names s)).

Definition ValueSpec_End (s : ValueSpec) : token.Pos :=
  match Values s, Type_ s with
  | _ :: _, _ => last (map End (Values s)) token.NoPos
  | [], Some t => End t
  | [], None => last (map Ident_End (Names s)) token.NoPos
  end.

Definition GenDecl_Pos (d : GenDecl) : token.Pos := TokPos d.

Definition GenDecl_End (d : GenDecl) : token.Pos :=
  if IsValid (GenDecl_Rparen d) then GenDecl_Rparen d + 1
  else hd token.NoPos (map ValueSpec_End (Specs d)).

Definition Stmt_Pos (s : Stmt) : token.Pos :=
  match s with
  | ExprStmt x => Pos x
  | AssignStmt lhs _ _ _ => hd token.NoPos (map Pos lhs)
  | DeclStmt d => GenDecl_Pos d
  | ReturnStmt r _ => r
  | BlockStmt lb _ _ => lb
  | IfStmt i _ _ _ _ => i
  | ForStmt f _ _ _ _ => f
  end.

Fixpoint Stmt_End (s : Stmt) : token.Pos :=
  match s with
  | ExprStmt x => End x
  | AssignStmt _ _ _ rhs => last (map End rhs) token.NoPos
  | DeclStmt d => GenDecl_End d
  | ReturnStmt r results =>
      match results with
      | [] => r + 6
      | _ => last (map End results) token.NoPos
      end
  | BlockStmt lb list rb =>
      if IsValid rb then rb + 1
      else match list with
           | [] => lb + 1
           | _ => last (map Stmt_End list) token.NoPos
           end
  | IfStmt _ _ _ body els =>
      match els with
      | Some e => Stmt_End e
      | None => Stmt_End body
      end
  | ForStmt _ _ _ _ body => Stmt_End body
  end.

Definition Decl_Pos (d : Decl) : token.Pos :=
  match d with
  | GenDecl_ g => GenDecl_Pos g
  | FuncDecl _ t _ => FuncType_Pos t
  end.

Definition Decl_End (d : Decl) : token.Pos :=
  match d with
  | GenDecl_ g => GenDecl_End g
  | FuncDecl _ t (Some body) => Stmt_End body
  | FuncDecl _ t None => FuncType_End t
  end.

(** The nodes of a tree in the order [ast.Inspect] (and [ast.Walk])
    reaches them: a node, then its children field by field. *)
Definition walkOpt {A : Type} (walk : A -> list Node) (o : option A)
  : list Node :=
  match o with
  | Some a => walk a
  | None => []
  end.

Definition walkIdent (id : Ident) : list Node := [ExprNode (Ident_ id)].

Fixpoint walkExpr (e : Expr) : list Node :=
  ExprNode e ::
  match e with
  | BadExpr _ _ | Ident_ _ | BasicLit _ _ _ => []
  | ParenExpr _ x _ => walkExpr x
  | SelectorExpr x sel => walkExpr x ++ walkIdent sel
  | IndexExpr x _ index _ => walkExpr x ++ walkExpr index
  | CallExpr f _ args _ => walkExpr f ++ flat_map walkExpr args
  | StarExpr _ x => walkExpr x
  | UnaryExpr _ _ x => walkExpr x
  | BinaryExpr x _ _ y => walkExpr x ++ walkExpr y
  end.

Definition walkField (f : Field) : list Node :=
  FieldNode f :: flat_map walkIdent (Field_Names f) ++ walkExpr (Field_Type f).

Definition walkFieldList (l : FieldList) : list Node :=
  FieldListNode l :: flat_map walkField (List_ l).

Definition walkFuncType (t : FuncType) : list Node :=
  FuncTypeNode t :: walkFieldList (Params t)
                 ++ walkOpt walkFieldList (Results t).

Definition walkSpec (s : ValueSpec) : list Node :=
  SpecNode s :: flat_map walkIdent (Names s)
             ++ walkOpt walkExpr (Type_ s)
             ++ flat_map walkExpr (Values s).

Definition walkGenDecl (d : GenDecl) : list Node :=
  DeclNode (GenDecl_ d) :: flat_map walkSpec (Specs d).

Fixpoint walkStmt (s : Stmt) : list Node :=
  StmtNode s ::
  match s with
  | ExprStmt x => walkExpr x
  | AssignStmt lhs _ _ rhs => flat_map walkExpr lhs ++ flat_map walkExpr rhs
  | DeclStmt d => walkGenDecl d
  | ReturnStmt _ results => flat_map walkExpr results
  | BlockStmt _ list _ => flat_map walkStmt list
  | IfStmt _ init cond body els =>
      match init with Some i => walkStmt i | None => [] end
      ++ walkExpr cond ++ walkStmt body
      ++ match els with Some e => walkStmt e | None => [] end
  | ForStmt _ init cond post body =>
      match init with Some i => walkStmt i | None => [] end
      ++ walkOpt walkExpr cond
      ++ match post with Some p => walkStmt p | None => [] end
      ++ walkStmt body
  end.

Definition walkDecl (d : Decl) : list Node :=
  match d with
  | GenDecl_ g => walkGenDecl g
  | FuncDecl name type body =>
      DeclNode d :: walkIdent name ++ walkFuncType type
                 ++ walkOpt walkStmt body
  end.

Definition walkFile (f : File) : list Node :=
  FileNode f :: walkIdent (File_Name f) ++ flat_map walkDecl (Decls f).

(** The dynamic type of a node, as far as a type filter can tell nodes
    apart. *)
Inductive NodeType : Set :=
| T_BadExpr | T_Ident | T_BasicLit | T_ParenExpr | T_SelectorExpr
| T_IndexExpr | T_CallExpr | T_StarExpr | T_UnaryExpr | T_BinaryExpr
| T_Field | T_FieldList | T_FuncType | T_ValueSpec
| T_ExprStmt | T_AssignStmt | T_DeclStmt | T_ReturnStmt | T_BlockStmt
| T_IfStmt | T_ForStmt
| T_GenDecl | T_FuncDecl | T_File.

Definition typeOf (n : Node) : option NodeType :=
  match n with
  | NilNode => None
  | ExprNode e =>
      Some match e with
           | BadExpr _ _ => T_BadExpr
           | Ident_ _ => T_Ident
           | BasicLit _ _ _ => T_BasicLit
           | ParenExpr _ _ _ => T_ParenExpr
           | SelectorExpr _ _ => T_SelectorExpr
           | IndexExpr _ _ _ _ => T_IndexExpr
           | CallExpr _ _ _ _ => T_CallExpr
           | StarExpr _ _ => T_StarExpr
           | UnaryExpr _ _ _ => T_UnaryExpr
           | BinaryExpr _ _ _ _ => T_BinaryExpr
           end
  | FieldNode _ => Some T_Field
  | FieldListNode _ => Some T_FieldList
  | FuncTypeNode _ => Some T_FuncType
  | SpecNode _ => Some T_ValueSpec
  | StmtNode s =>
      Some match s with
           | ExprStmt _ => T_ExprStmt
           | AssignStmt _ _ _ _ => T_AssignStmt
           | DeclStmt _ => T_DeclStmt
           | ReturnStmt _ _ => T_ReturnStmt
           | BlockStmt _ _ _ => T_BlockStmt
           | IfStmt _ _ _ _ _ => T_IfStmt
           | ForStmt _ _ _ _ _ => T_ForStmt
           end
  | DeclNode (GenDecl_ _) => Some T_GenDecl
  | DeclNode (FuncDecl _ _ _) => Some T_FuncDecl
  | FileNode _ => Some T_File
  end.

Definition NodeType_eqb (a b : NodeType) : bool :=
  match a, b with
  | T_BadExpr, T_BadExpr | T_Ident, T_Ident | T_BasicLit, T_BasicLit
  | T_ParenExpr, T_ParenExpr | T_SelectorExpr, T_SelectorExpr
  | T_IndexExpr, T_IndexExpr | T_CallExpr, T_CallExpr
  | T_StarExpr, T_StarExpr | T_UnaryExpr, T_UnaryExpr
  | T_BinaryExpr, T_BinaryExpr | T_Field, T_Field
  | T_FieldList, T_FieldList | T_FuncType, T_FuncType
  | T_ValueSpec, T_ValueSpec | T_ExprStmt, T_ExprStmt
  | T_AssignStmt, T_AssignStmt | T_DeclStmt, T_DeclStmt
  | T_ReturnStmt, T_ReturnStmt | T_BlockStmt, T_BlockStmt
  | T_IfStmt, T_IfStmt | T_ForStmt, T_ForStmt
  | T_GenDecl, T_GenDecl | T_FuncDecl, T_FuncDecl | T_File, T_File => true
  | _, _ => false
  end.

End ast.

(* ================================================================== *)
(** ** go/types: types and their underlying types *)

Module types.

(** [types.BasicKind]. *)
Inductive BasicKind : Set :=
| Invalid
| Bool | Int | Int8 | Int16 | Int32 | Int64
| Uint | Uint8 | Uint16 | Uint32 | Uint64 | Uintptr
| Float32 | Float64 | Complex64 | Complex128
| String_ | UnsafePointer
| UntypedBool | UntypedInt | UntypedRune | UntypedFloat
| UntypedComplex | UntypedString | UntypedNil.

Inductive ChanDir : Set := SendRecv | SendOnly | RecvOnly.

(** [types.Type].  A value of the interface is one of the concrete type
    nodes below.  A [Named] (defined) type and an [Alias] carry the name
    under which [TypeString] prints them and the type they were declared
    from; types are finite trees here. *)
Inductive GoType : Type :=
| Basic (kind : BasicKind) (name : string)
| Pointer (base : GoType)
| Named (name : string) (underlying : GoType)
| Alias (name : string) (actual : GoType)
| Array (len : Z) (elem : GoType)
| Slice (elem : GoType)
| Struct (fields : list (string * GoType))
| Map (key elem : GoType)
| Chan (dir : ChanDir) (elem : GoType)
| Signature (params results : list GoType)
| Interface (methods : list (string * GoType))
| Tuple (vars : list GoType).

(** [types.Typ]: the predeclared basic types. *)
Definition Typ (k : BasicKind) : GoType :=
  Basic k
    match k with
    | Invalid => "invalid type"
    | Bool => "bool" | Int => "int" | Int8 => "int8" | Int16 => "int16"
    | Int32 => "int32" | Int64 => "int64"
    | Uint => "uint" | Uint8 => "uint8" | Uint16 => "uint16"
    | Uint32 => "uint32" | Uint64 => "uint64" | Uintptr => "uintptr"
    | Float32 => "float32" | Float64 => "float64"
    | Complex64 => "complex64" | Complex128 => "complex128"
    | String_ => "string" | UnsafePointer => "unsafe.Pointer"
    | UntypedBool => "untyped bool" | UntypedInt => "untyped int"
    | UntypedRune => "untyped rune" | UntypedFloat => "untyped float"
    | UntypedComplex => "untyped complex"
    | UntypedString => "untyped string" | UntypedNil => "untyped nil"
    end.

(** [t.Underlying()]: a defined type and an alias resolve to the type
    they stand for; every other type is its own underlying type. *)
Fixpoint Underlying (t : GoType) : GoType :=
  match t with
  | Named _ u => Underlying u
  | Alias _ a => Underlying a
  | _ => t
  end.

(** The type assertion of [t] to [*types.Pointer]: the pointer's base
    type when it succeeds. *)
Definition asPointer (t : GoType) : option GoType :=
  match t with
  | Pointer base => Some base
  | _ => None
  end.

(** The type assertion of [t] to [*types.Basic]. *)
Definition asBasic (t : GoType) : option (BasicKind * string) :=
  match t with
  | Basic k n => Some (k, n)
  | _ => None
  end.

Definition string_of_Z (z : Z) : string :=
  NilZero.string_of_int (Z.to_int z).

Fixpoint join (sep : string) (l : list string) : string :=
  match l with
  | [] => EmptyString
  | [x] => x
  | x :: rest => x ++ sep ++ join sep rest
  end.

(** [types.TypeString(t, nil)], which is what [t.String()] and the verb
    [%v] print.  Parameters, results, fields and methods are printed
    without tags and parameter names. *)
Fixpoint TypeString (t : GoType) : string :=
  let signature (params results : list GoType) : string :=
    "(" ++ join ", " (map TypeString params) ++ ")"
    ++ match results with
       | [] => EmptyString
       | [r] => " " ++ TypeString r
       | _ => " (" ++ join ", " (map TypeString results) ++ ")"
       end in
  match t with
  | Basic _ name => name
  | Pointer base => "*" ++ TypeString base
  | Named name _ => name
  | Alias name _ => name
  | Array len elem => "[" ++ string_of_Z len ++ "]" ++ TypeString elem
  | Slice elem => "[]" ++ TypeString elem
  | Struct fields =>
      "struct{"
      ++ join "; " (map (fun f => fst f ++ " " ++ TypeString (snd f)) fields)
      ++ "}"
  | Map key elem => "map[" ++ TypeString key ++ "]" ++ TypeString elem
  | Chan SendRecv elem =>
      "chan "
      ++ match elem with
         | Chan RecvOnly _ => "(" ++ TypeString elem ++ ")"
         | _ => TypeString elem
         end
  | Chan SendOnly elem => "chan<- " ++ TypeString elem
  | Chan RecvOnly elem => "<-chan " ++ TypeString elem
  | Signature params results => "func" ++ signature params results
  | Interface methods =>
      "interface{"
      ++ join "; "
           (map (fun m => fst m
                          ++ match snd m with
                             | Signature params results =>
                                 signature params results
                             | _ => " " ++ TypeString (snd m)
                             end) methods)
      ++ "}"
  | Tuple vars => "(" ++ join ", " (map TypeString vars) ++ ")"
  end.

(** [types.Object], reduced to its name and its type. *)
Record Object : Type := mkObject {
  Object_Name : string;
  Object_Type : option GoType
}.

(** [types.TypeAndValue], reduced to its type. *)
Record TypeAndValue : Type := mkTypeAndValue {
  Type_ : option GoType
}.

(** [types.Info]: the tables the type checker fills.  A Go map from node
    pointers is a partial function on nodes. *)
Record Info : Type := mkInfo {
  Types : ast.Expr -> option TypeAndValue;
  Defs : ast.Ident -> option Object;
  Uses : ast.Ident -> option Object
}.

(** [info.ObjectOf(id)]. *)
Definition ObjectOf (info : Info) (id : ast.Ident) : option Object :=
  match Defs info id with
  | Some obj => Some obj
  | None => Uses info id
  end.

(** [info.TypeOf(e)]: the recorded type of [e], for an identifier without
    one the type of the object it denotes, and nil otherwise. *)
Definition TypeOf (info : Info) (e : ast.Expr) : option GoType :=
  match Types info e with
  | Some tv => Type_ tv
  | None =>
      match e with
      | ast.Ident_ id =>
          match ObjectOf info id with
          | Some obj => Object_Type obj
          | None => None
          end
      | _ => None
      end
  end.

End types.

(* ================================================================== *)
(** ** Effects: state passing for what a pass reports *)

(** A computation that reads and updates a state [S] (the report sink of
    the caller) and returns an [A]. *)
Definition M (S A : Type) : Type := S -> A * S.

Definition ret {S A : Type} (a : A) : M S A := fun s => (a, s).

Definition bind {S A B : Type} (m : M S A) (k : A -> M S B) : M S B :=
  fun s => let (a, s') := m s in k a s'.

Notation "x <- m ;; k" := (bind m (fun x => k))
  (at level 61, m at next level, right associativity).
Notation "m ;;; k" := (bind m (fun _ => k))
  (at level 61, right associativity).

(** [for _, x := range l { f(x) }]. *)
Fixpoint forEach {S A : Type} (l : list A) (f : A -> M S unit) : M S unit :=
  match l with
  | [] => ret tt
  | x :: rest => f x ;;; forEach rest f
  end.

(** A Go [error] value: nil or a message. *)
Definition error : Set := option string.

(** How a call ends: it returns, or it panics. *)
Inductive outcome (A : Type) : Type :=
| Returned (a : A)
| Panicked.
Arguments Returned {A} a.
Arguments Panicked {A}.

(* ================================================================== *)
(** ** golang.org/x/tools/go/ast/inspector *)

Module inspector.

(** [*inspector.Inspector]: the nodes of the files it was built from, in
    traversal order. *)
Record Inspector : Type := mkInspector {
  events : list ast.Node
}.

(** [inspector.New(files)]. *)
Definition New (files : list ast.File) : Inspector :=
  mkInspector (flat_map ast.walkFile files).

(** Whether a node passes the type filter; an empty filter lets every
    node through. *)
Definition selected (types : list ast.NodeType) (n : ast.Node) : bool :=
  match types with
  | [] => true
  | _ =>
      match ast.typeOf n with
      | Some t => existsb (ast.NodeType_eqb t) types
      | None => false
      end
  end.

(** [in.Preorder(types, f)]: calls [f] on every node whose type is in
    [types], in depth-first order, parents before children. *)
Definition Preorder {S : Type} (in_ : Inspector) (types : list ast.NodeType)
  (f : ast.Node -> M S unit) : M S unit :=
  forEach (events in_) (fun n => if selected types n then f n else ret tt).

End inspector.

(** A Go [any] (interface) value, as far as the analyzer inspects it. *)
Inductive any : Type :=
| any_nil
| any_Inspector (i : inspector.Inspector)
| any_other (description : string).

(* ================================================================== *)
(** ** golang.org/x/tools/go/analysis *)

Module analysis.

(** [analysis.Diagnostic]; the analyzer sets [Pos] and [Message] and
    leaves every other field at its zero value. *)
Record Diagnostic : Set := mkDiagnostic {
  Pos : token.Pos;
  Message : string
}.

(** [*analysis.Pass].  [ResultOf] is keyed by the analyzer (here by its
    name); a missing key reads as nil.  [Report] is the callback of the
    driver, acting on the driver's state. *)
Record Pass (S : Type) : Type := mkPass {
  Fset : token.FileSet;
  Files : list ast.File;
  TypesInfo : types.Info;
  ResultOf : string -> any;
  Report : Diagnostic -> M S unit
}.
Arguments mkPass {S}.
Arguments Fset {S}.
Arguments Files {S}.
Arguments TypesInfo {S}.
Arguments ResultOf {S}.
Arguments Report {S}.

End analysis.

(** [inspect.Analyzer]: its name, and its [Run], which builds an
    inspector over the files of the pass and never fails. *)
Module inspect.

Definition Analyzer_Name : string := "inspect".

Definition Analyzer_Run {S : Type} (pass : analysis.Pass S) : any * error :=
  (any_Inspector (inspector.New (analysis.Files pass)), None).

End inspect.

(** [fmt]'s verb [%v] on a [types.Type] value. *)
Definition fmt_v (t : option types.GoType) : string :=
  match t with
  | Some t => types.TypeString t
  | None => "<nil>"
  end.

(* ================================================================== *)
(** ** main.go *)

(** [isPointerType]. *)
Definition isPointerType {S : Type} (pass : analysis.Pass S) (expr : ast.Expr)
  : bool :=
  let exprType := types.TypeOf (analysis.TypesInfo pass) expr in
  match exprType with
  | None => false
  | Some exprType =>
      match types.asPointer exprType with
      | Some _ => true
      | None => false
      end
  end.

(** [getUnderlyingType]. *)
Definition getUnderlyingType {S : Type} (pass : analysis.Pass S)
  (expr : ast.Expr) : option types.GoType :=
  let exprType := types.TypeOf (analysis.TypesInfo pass) expr in
  match exprType with
  | None => None
  | Some exprType =>
      match types.asPointer exprType with
      | Some elem => Some elem
      | None => Some exprType
      end
  end.

(** [isBasicType]. *)
Definition isBasicType (t : option types.GoType) : bool :=
  match t with
  | None => false
  | Some t =>
      match types.asBasic (types.Underlying t) with
      | Some _ => true
      | None => false
      end
  end.

(** The filter [run] hands to [Preorder]. *)
Definition nodeFilter : list ast.NodeType := [ast.T_BinaryExpr].

(** The function literal [run] hands to [Preorder]. *)
Definition run_func1 {S : Type} (pass : analysis.Pass S) (n : ast.Node)
  : M S unit :=
  match n with
  | ast.NilNode => ret tt
  | ast.ExprNode (ast.BinaryExpr X _ Op Y as binaryExpr) =>
      match Op with
      | token.EQL | token.NEQ | token.LSS | token.GTR
      | token.LEQ | token.GEQ =>
          if isPointerType pass X && isPointerType pass Y then
            let leftType := getUnderlyingType pass X in
            let rightType := getUnderlyingType pass Y in
            if isBasicType leftType && isBasicType rightType then
              analysis.Report pass
                {| analysis.Pos := ast.Pos binaryExpr;
                   analysis.Message :=
                     "comparing pointers to basic types: "
                     ++ fmt_v leftType ++ " and " ++ fmt_v rightType |}
            else ret tt
          else ret tt
      | _ => ret tt
      end
  | _ => ret tt
  end.

(** [run]: the type assertion on the inspector panics when the pass does
    not hold one; otherwise the traversal runs and [run] returns
    [nil, nil]. *)
Definition run {S : Type} (pass : analysis.Pass S)
  : M S (outcome (any * error)) :=
  match analysis.ResultOf pass inspect.Analyzer_Name with
  | any_Inspector inspect =>
      inspector.Preorder inspect nodeFilter (run_func1 pass) ;;;
      ret (Returned (any_nil, None))
  | _ => ret Panicked
  end.

(** [*packages.Package], reduced to the fields [parseDir] reads. *)
Record Package : Type := mkPackage {
  Pkg_Name : string;
  Pkg_Fset : token.FileSet;
  Syntax : list ast.File;
  Pkg_TypesInfo : types.Info
}.

Definition newline : string := String (ascii_of_nat 10) EmptyString.

(** [fmt.Sprintf] with the format of [parseDir], file:line:column:
    message and a newline. *)
Definition Sprintf_result (filename : string) (line column : Z)
  (message : string) : string :=
  filename ++ ":" ++ types.string_of_Z line ++ ":"
  ++ types.string_of_Z column ++ ": " ++ message ++ newline.

(** The [Report] callback [parseDir] installs: it formats the diagnostic
    and appends it to [results]. *)
Definition parseDir_Report (pkg : Package) (d : analysis.Diagnostic)
  : M (list string) unit :=
  fun results =>
    let pos := token.Position_of (Pkg_Fset pkg) (analysis.Pos d) in
    (tt, List.app results
           [Sprintf_result (token.Filename pos) (token.Line pos)
              (token.Column pos) (analysis.Message d)]).

(** [pass.ResultOf[key] = value]. *)
Definition setResultOf {S : Type} (pass : analysis.Pass S) (key : string)
  (value : any) : analysis.Pass S :=
  analysis.mkPass (analysis.Fset pass) (analysis.Files pass)
    (analysis.TypesInfo pass)
    (fun k => if String.eqb k key then value else analysis.ResultOf pass k)
    (analysis.Report pass).

(** The loop of [parseDir] over the loaded packages; the state is the
    slice [results].  Log output is not modelled. *)
Fixpoint parseDir_packages (pkgs : list Package)
  : M (list string) (outcome (list string * error)) :=
  match pkgs with
  | [] => fun results => (Returned (results, None), results)
  | pkg :: rest =>
      let pass :=
        analysis.mkPass (Pkg_Fset pkg) (Syntax pkg) (Pkg_TypesInfo pkg)
          (fun _ => any_nil) (parseDir_Report pkg) in
      let inspectPass :=
        analysis.mkPass (S := list string) (Pkg_Fset pkg) (Syntax pkg)
          (Pkg_TypesInfo pkg) (fun _ => any_nil) (fun _ => ret tt) in
      match inspect.Analyzer_Run inspectPass with
      | (_, Some _) => parseDir_packages rest
      | (result, None) =>
          let pass := setResultOf pass inspect.Analyzer_Name result in
          r <- run pass ;;
          match r with
          | Panicked => ret Panicked
          | Returned (_, Some err) =>
              ret (Returned
                     ([], Some ("Failed to run analyzer on package "
                                ++ Pkg_Name pkg ++ ": " ++ err ++ newline)))
          | Returned (_, None) => parseDir_packages rest
          end
      end
  end.

Section ParseDir.

(** [packages.Load(cfg, "./...")] for the directory [dir]: the external
    loader and type checker. *)
Variable packages_Load : string -> list Package * error.

(** [parseDir]. *)
Definition parseDir (dir : string) : outcome (list string * error) :=
  match packages_Load dir with
  | (_, Some err) =>
      Returned ([], Some ("Failed to load packages: " ++ err))
  | (pkgs, None) => fst (parseDir_packages pkgs [])
  end.

End ParseDir.

(** How a command ends: it returns, [log.Fatal] makes it exit with a
    message, or it panics. *)
Inductive termination : Type :=
| Normal
| Fatal (message : string)
| Panics.

Section Main.

Variable packages_Load : string -> list Package * error.

(** [main], run with [os.Args] equal to [Args]; what [parseDir] returns
    is dropped. *)
Definition main (Args : list string) : termination :=
  if negb (Nat.eqb (List.length Args) 2)
  then Fatal "Usage: ptrcmp <directory>"
  else
    let dir := nth 1 Args EmptyString in
    match parseDir packages_Load dir with
    | Returned _ => Normal
    | Panicked => Panics
    end.

End Main.

(* ================================================================== *)
(** ** The variant of the analyzer that dispatches to [Visit] *)

Module variant.

(** [isPointerType]. *)
Definition isPointerType {S : Type} (pass : analysis.Pass S) (expr : ast.Expr)
  : bool :=
  let exprType := types.TypeOf (analysis.TypesInfo pass) expr in
  match exprType with
  | None => false
  | Some exprType =>
      match types.asPointer exprType with
      | Some _ => true
      | None => false
      end
  end.

(** [getUnderlyingType]. *)
Definition getUnderlyingType {S : Type} (pass : analysis.Pass S)
  (expr : ast.Expr) : option types.GoType :=
  let exprType := types.TypeOf (analysis.TypesInfo pass) expr in
  match exprType with
  | None => None
  | Some exprType =>
      match types.asPointer exprType with
      | Some elem => Some elem
      | None => Some exprType
      end
  end.

(** [isBasicType2]. *)
Definition isBasicType2 (t : option types.GoType) : bool :=
  match t with
  | None => false
  | Some t =>
      match types.asBasic (types.Underlying t) with
      | Some _ => true
      | None => false
      end
  end.

(** [Visit]. *)
Definition Visit {S : Type} (pass : analysis.Pass S) (node : ast.Node)
  : M S unit :=
  match node with
  | ast.NilNode => ret tt
  | ast.ExprNode (ast.BinaryExpr X _ Op Y as binaryExpr) =>
      match Op with
      | token.EQL | token.NEQ | token.LSS | token.GTR
      | token.LEQ | token.GEQ =>
          if isPointerType pass X && isPointerType pass Y then
            let leftType := getUnderlyingType pass X in
            let rightType := getUnderlyingType pass Y in
            if isBasicType2 leftType && isBasicType2 rightType then
              analysis.Report pass
                {| analysis.Pos := ast.Pos binaryExpr;
                   analysis.Message :=
                     "comparing pointers to basic types: "
                     ++ fmt_v leftType ++ " and " ++ fmt_v rightType |}
            else ret tt
          else ret tt
      | _ => ret tt
      end
  | _ => ret tt
  end.

(** [run]. *)
Definition run {S : Type} (pass : analysis.Pass S)
  : M S (outcome (any * error)) :=
  match analysis.ResultOf pass inspect.Analyzer_Name with
  | any_Inspector inspect =>
      inspector.Preorder inspect nodeFilter (fun n => Visit pass n) ;;;
      ret (Returned (any_nil, None))
  | _ => ret Panicked
  end.

(** The [Report] callback of the variant's [parseDir]: [fmt.Printf] of
    the diagnostic, one write to standard output. *)
Definition parseDir_Report (pkg : Package) (d : analysis.Diagnostic)
  : M (list string) unit :=
  fun stdout =>
    let pos := token.Position_of (Pkg_Fset pkg) (analysis.Pos d) in
    (tt, List.app stdout
           [Sprintf_result (token.Filename pos) (token.Line pos)
              (token.Column pos) (analysis.Message d)]).

(** The loop of the variant's [parseDir]; the state is what was written
    to standard output.  An error of the analyzer is logged and the loop
    goes on. *)
Fixpoint parseDir_packages (pkgs : list Package)
  : M (list string) termination :=
  match pkgs with
  | [] => ret Normal
  | pkg :: rest =>
      let pass :=
        analysis.mkPass (Pkg_Fset pkg) (Syntax pkg) (Pkg_TypesInfo pkg)
          (fun _ => any_nil) (parseDir_Report pkg) in
      let inspectPass :=
        analysis.mkPass (S := list string) (Pkg_Fset pkg) (Syntax pkg)
          (Pkg_TypesInfo pkg) (fun _ => any_nil) (fun _ => ret tt) in
      match inspect.Analyzer_Run inspectPass with
      | (_, Some _) => parseDir_packages rest
      | (result, None) =>
          let pass := setResultOf pass inspect.Analyzer_Name result in
          r <- run pass ;;
          match r with
          | Panicked => ret Panics
          | Returned (_, Some _) => parseDir_packages rest
          | Returned (_, None) => parseDir_packages rest
          end
      end
  end.

Section ParseDir.

Variable packages_Load : string -> list Package * error.

(** [parseDir] of the variant: it prints, and a failure to load is
    fatal. *)
Definition parseDir (dir : string) : M (list string) termination :=
  match packages_Load dir with
  | (_, Some err) => ret (Fatal ("Failed to load packages: " ++ err))
  | (pkgs, None) => parseDir_packages pkgs
  end.

(** [main] of the variant. *)
Definition main (Args : list string) : M (list string) termination :=
  if negb (Nat.eqb (List.length Args) 2)
  then ret (Fatal "Usage: ptrcmp <directory>")
  else parseDir (nth 1 Args EmptyString).

End ParseDir.

End variant.

(* ================================================================== *)
(** ** A driver that records diagnostics *)

(** A [Report] callback that appends the diagnostic to the list of those
    reported so far. *)
Definition record (d : analysis.Diagnostic)
  : M (list analysis.Diagnostic) unit :=
  fun ds => (tt, List.app ds [d]).

(** The pass a driver builds for one package, as [parseDir] does, with
    [record] as its callback and [result] stored for [inspect.Analyzer]. *)
Definition scanPass (pkg : Package) (result : any)
  : analysis.Pass (list analysis.Diagnostic) :=
  analysis.mkPass (Pkg_Fset pkg) (Syntax pkg) (Pkg_TypesInfo pkg)
    (fun k => if String.eqb k inspect.Analyzer_Name then result else any_nil)
    record.

(** One scan of a package: [inspect.Analyzer] runs, then [run]; the
    result is what [run] returns and the diagnostics it reported. *)
Definition scan (pkg : Package)
  : outcome (any * error) * list analysis.Diagnostic :=
  run (scanPass pkg (fst (inspect.Analyzer_Run (scanPass pkg any_nil)))) [].

Definition diagnostics (pkg : Package) : list analysis.Diagnostic :=
  snd (scan pkg).

(** The diagnostics reported while the traversal goes through [nodes]
    only, starting from none. *)
Definition visitNodes (pkg : Package) (nodes : list ast.Node)
  : list analysis.Diagnostic :=
  snd (inspector.Preorder (inspector.mkInspector nodes) nodeFilter
         (run_func1 (scanPass pkg any_nil)) []).

(** A pass with its callback replaced by [record]. *)
Definition recording {S : Type} (pass : analysis.Pass S)
  : analysis.Pass (list analysis.Diagnostic) :=
  analysis.mkPass (analysis.Fset pass) (analysis.Files pass)
    (analysis.TypesInfo pass) (analysis.ResultOf pass) record.

(** The six comparison operators. *)
Definition comparisonOps : list token.Token :=
  [token.EQL; token.NEQ; token.LSS; token.GTR; token.LEQ; token.GEQ].

(** Whether a token is one of the six. *)
Definition isComparison (op : token.Token) : bool :=
  existsb (fun o => if token.Token_eq_dec o op then true else false)
    comparisonOps.

(** The diagnostic, if any, that the visit of a node reports; it depends
    on the type information of the pass only. *)
Definition reportOf (info : types.Info) (n : ast.Node)
  : option analysis.Diagnostic :=
  match n with
  | ast.ExprNode (ast.BinaryExpr X _ Op Y as binaryExpr) =>
      if isComparison Op then
        match types.TypeOf info X, types.TypeOf info Y with
        | Some (types.Pointer l), Some (types.Pointer r) =>
            match types.Underlying l, types.Underlying r with
            | types.Basic _ _, types.Basic _ _ =>
                Some {| analysis.Pos := ast.Pos binaryExpr;
                        analysis.Message :=
                          "comparing pointers to basic types: "
                          ++ types.TypeString l ++ " and "
                          ++ types.TypeString r |}
            | _, _ => None
            end
        | _, _ => None
        end
      else None
  | _ => None
  end.

(** The diagnostics of a list of nodes, in the order of the list. *)
Definition reportsOf (info : types.Info) (nodes : list ast.Node)
  : list analysis.Diagnostic :=
  flat_map (fun n => match reportOf info n with
                     | Some d => [d]
                     | None => []
                     end) nodes.




(** An expression inside another, itself included. *)
Inductive subexpr (c : ast.Expr) : ast.Expr -> Prop :=
| subexpr_refl : subexpr c c
| subexpr_paren lp x rp :
    subexpr c x -> subexpr c (ast.ParenExpr lp x rp)
| subexpr_selector x sel :
    subexpr c x -> subexpr c (ast.SelectorExpr x sel)
| subexpr_index_x x lb index rb :
    subexpr c x -> subexpr c (ast.IndexExpr x lb index rb)
| subexpr_index_index x lb index rb :
    subexpr c index -> subexpr c (ast.IndexExpr x lb index rb)
| subexpr_call_fun f lp args rp :
    subexpr c f -> subexpr c (ast.CallExpr f lp args rp)
| subexpr_call_arg f lp args rp a :
    In a args -> subexpr c a -> subexpr c (ast.CallExpr f lp args rp)
| subexpr_star star x :
    subexpr c x -> subexpr c (ast.StarExpr star x)
| subexpr_unary p op x :
    subexpr c x -> subexpr c (ast.UnaryExpr p op x)
| subexpr_binary_x x p op y :
    subexpr c x -> subexpr c (ast.BinaryExpr x p op y)
| subexpr_binary_y x p op y :
    subexpr c y -> subexpr c (ast.BinaryExpr x p op y).

(** A qualifying comparison: a binary expression under one of the six
    operators whose operands are both pointers with a basic pointee, by
    the tests of the analyzer. *)
Definition qualifies {S : Type} (pass : analysis.Pass S) (n : ast.Node)
  : bool :=
  match n with
  | ast.ExprNode (ast.BinaryExpr X _ Op Y) =>
      isComparison Op
      && (isPointerType pass X && isPointerType pass Y)
      && (isBasicType (getUnderlyingType pass X)
          && isBasicType (getUnderlyingType pass Y))
  | _ => false
  end.

(** The source position of a node that is an expression. *)
Definition nodePos (n : ast.Node) : token.Pos :=
  match n with
  | ast.ExprNode e => ast.Pos e
  | _ => token.NoPos
  end.

(** The line [parseDir] keeps for a diagnostic of a package. *)
Definition resultLine (pkg : Package) (d : analysis.Diagnostic) : string :=
  let pos := token.Position_of (Pkg_Fset pkg) (analysis.Pos d) in
  Sprintf_result (token.Filename pos) (token.Line pos) (token.Column pos)
    (analysis.Message d).

(* ================================================================== *)
(** ** Source order

    The positions of a tree are in source order when the parts of every
    node follow one another: each part ends before the next one starts,
    and all lie between the start and the end of the node. *)

Definition span : Type := (Z * Z)%type.

(** The span of a token of the given length. *)
Definition tok (p : token.Pos) (len : Z) : span := (p, p + len).

(** [lo <= a1 <= b1 <= a2 <= b2 <= ... <= hi] for the spans [(ai, bi)]. *)
Fixpoint chain (lo : Z) (spans : list span) (hi : Z) : bool :=
  match spans with
  | [] => lo <=? hi
  | s :: rest => (lo <=? fst s) && (fst s <=? snd s) && chain (snd s) rest hi
  end.

Definition identSpan (id : ast.Ident) : span :=
  (ast.NamePos id, ast.Ident_End id).

Definition exprSpan (e : ast.Expr) : span := (ast.Pos e, ast.End e).

Definition optSpan {A : Type} (sp : A -> span) (o : option A) : list span :=
  match o with
  | Some a => [sp a]
  | None => []
  end.

Fixpoint wfExpr (e : ast.Expr) : bool :=
  match e with
  | ast.BadExpr from to => from <=? to
  | ast.Ident_ _ | ast.BasicLit _ _ _ => true
  | ast.ParenExpr lp x rp =>
      wfExpr x && chain lp [tok lp 1; exprSpan x; tok rp 1] (rp + 1)
  | ast.SelectorExpr x sel =>
      wfExpr x && chain (ast.Pos x) [exprSpan x; identSpan sel]
                    (ast.Ident_End sel)
  | ast.IndexExpr x lb index rb =>
      wfExpr x && wfExpr index
      && chain (ast.Pos x) [exprSpan x; tok lb 1; exprSpan index; tok rb 1]
           (rb + 1)
  | ast.CallExpr f lp args rp =>
      wfExpr f && forallb wfExpr args
      && chain (ast.Pos f)
           (exprSpan f :: tok lp 1 :: map exprSpan args ++ [tok rp 1])
           (rp + 1)
  | ast.StarExpr star x =>
      wfExpr x && chain star [tok star 1; exprSpan x] (ast.End x)
  | ast.UnaryExpr p _ x =>
      wfExpr x && chain p [tok p 1; exprSpan x] (ast.End x)
  | ast.BinaryExpr x p _ y =>
      wfExpr x && wfExpr y
      && chain (ast.Pos x) [exprSpan x; tok p 1; exprSpan y] (ast.End y)
  end.

Definition fieldSpan (f : ast.Field) : span :=
  (ast.Field_Pos f, ast.Field_End f).

Definition wfField (f : ast.Field) : bool :=
  wfExpr (ast.Field_Type f)
  && chain (ast.Field_Pos f)
       (map identSpan (ast.Field_Names f) ++ [exprSpan (ast.Field_Type f)])
       (ast.Field_End f).

Definition fieldListSpan (l : ast.FieldList) : span :=
  (ast.FieldList_Pos l, ast.FieldList_End l).

Definition wfFieldList (l : ast.FieldList) : bool :=
  forallb wfField (ast.List_ l)
  && chain (ast.FieldList_Pos l) (map fieldSpan (ast.List_ l))
       (ast.FieldList_End l).

Definition specSpan (s : ast.ValueSpec) : span :=
  (ast.ValueSpec_Pos s, ast.ValueSpec_End s).

Definition wfSpec (s : ast.ValueSpec) : bool :=
  match ast.Type_ s with Some t => wfExpr t | None => true end
  && forallb wfExpr (ast.Values s)
  && chain (ast.ValueSpec_Pos s)
       (map identSpan (ast.Names s) ++ optSpan exprSpan (ast.Type_ s)
        ++ map exprSpan (ast.Values s))
       (ast.ValueSpec_End s).

Definition wfGenDecl (d : ast.GenDecl) : bool :=
  forallb wfSpec (ast.Specs d)
  && chain (ast.GenDecl_Pos d) (map specSpan (ast.Specs d))
       (ast.GenDecl_End d).

Definition stmtSpan (s : ast.Stmt) : span := (ast.Stmt_Pos s, ast.Stmt_End s).

Fixpoint wfStmt (s : ast.Stmt) : bool :=
  match s with
  | ast.ExprStmt x => wfExpr x
  | ast.AssignStmt lhs p _ rhs =>
      forallb wfExpr lhs && forallb wfExpr rhs
      && chain (ast.Stmt_Pos s)
           (map exprSpan lhs ++ tok p 1 :: map exprSpan rhs) (ast.Stmt_End s)
  | ast.DeclStmt d => wfGenDecl d
  | ast.ReturnStmt r results =>
      forallb wfExpr results
      && chain r (tok r 6 :: map exprSpan results) (ast.Stmt_End s)
  | ast.BlockStmt lb list _ =>
      forallb wfStmt list
      && chain lb (tok lb 1 :: map stmtSpan list) (ast.Stmt_End s)
  | ast.IfStmt i init cond body els =>
      match init with Some st => wfStmt st | None => true end
      && wfExpr cond && wfStmt body
      && match els with Some st => wfStmt st | None => true end
      && chain i
           (tok i 2 :: optSpan stmtSpan init
            ++ exprSpan cond :: stmtSpan body :: optSpan stmtSpan els)
           (ast.Stmt_End s)
  | ast.ForStmt f init cond post body =>
      match init with Some st => wfStmt st | None => true end
      && match cond with Some c => wfExpr c | None => true end
      && match post with Some st => wfStmt st | None => true end
      && wfStmt body
      && chain f
           (tok f 3 :: optSpan stmtSpan init ++ optSpan exprSpan cond
            ++ optSpan stmtSpan post ++ [stmtSpan body])
           (ast.Stmt_End s)
  end.

Definition declSpan (d : ast.Decl) : span := (ast.Decl_Pos d, ast.Decl_End d).

Definition wfDecl (d : ast.Decl) : bool :=
  match d with
  | ast.GenDecl_ g => wfGenDecl g
  | ast.FuncDecl name type body =>
      wfFieldList (ast.Params type)
      && match ast.Results type with
         | Some r => wfFieldList r
         | None => true
         end
      && match body with Some st => wfStmt st | None => true end
      && chain (ast.Decl_Pos d)
           (identSpan name :: fieldListSpan (ast.Params type)
            :: optSpan fieldListSpan (ast.Results type)
            ++ optSpan stmtSpan body)
           (ast.Decl_End d)
  end.

(** The end of a file: that of its last declaration, or of its name. *)
Definition File_End (f : ast.File) : token.Pos :=
  last (map ast.Decl_End (ast.Decls f)) (ast.Ident_End (ast.File_Name f)).

Definition wfFile (f : ast.File) : bool :=
  forallb wfDecl (ast.Decls f)
  && chain (ast.Package f)
       (tok (ast.Package f) 7 :: identSpan (ast.File_Name f)
        :: map declSpan (ast.Decls f))
       (File_End f).

(** The positions of the binary expressions among the nodes. *)
Definition binPos (nodes : list ast.Node) : list token.Pos :=
  flat_map (fun n => match n with
                     | ast.ExprNode (ast.BinaryExpr _ _ _ _ as b) =>
                         [ast.Pos b]
                     | _ => []
                     end) nodes.

(** A list of positions in ascending order, all within a span. *)
Definition ascending (s : span) (l : list token.Pos) : Prop :=
  StronglySorted Z.le l /\ Forall (fun p => fst s <= p /\ p <= snd s) l.

(* ================================================================== *)
(** ** example/main.go, parsed and type-checked *)

Module example.

Definition int_ : types.GoType := types.Typ types.Int.
Definition ptr_int : types.GoType := types.Pointer int_.

Definition ident (p : token.Pos) (name : string) : ast.Expr :=
  ast.Ident_ (ast.mkIdent p name).

(** [var one *int] and [var two *int]. *)
Definition var_decl (var name star : token.Pos) (n : string) : ast.Stmt :=
  ast.DeclStmt
    (ast.mkGenDecl var token.VAR token.NoPos
       [ast.mkValueSpec [ast.mkIdent name n]
          (Some (ast.StarExpr star (ident (star + 1) "int"))) []]
       token.NoPos).

(** [one == two], at line 7, column 5. *)
Definition cmp_pointers : ast.Expr :=
  ast.BinaryExpr (ident 78 "one") 82 token.EQL (ident 85 "two").

(** [*one == *two], at line 11, column 5. *)
Definition cmp_values : ast.Expr :=
  ast.BinaryExpr (ast.StarExpr 185 (ident 186 "one")) 190 token.EQL
    (ast.StarExpr 193 (ident 194 "two")).

Definition body : ast.Stmt :=
  ast.BlockStmt 43
    [var_decl 46 50 54 "one";
     var_decl 60 64 68 "two";
     ast.IfStmt 75 None cmp_pointers (ast.BlockStmt 89 [] 178) None;
     ast.IfStmt 182 None cmp_values (ast.BlockStmt 198 [] 245) None]
    247.

Definition file : ast.File :=
  ast.mkFile 1 (ast.mkIdent 9 "example")
    [ast.FuncDecl (ast.mkIdent 23 "exampleComparison")
       (ast.mkFuncType 18 (ast.mkFieldList 40 [] 41) None) (Some body)].

(** The types the checker records for the expressions of the file. *)
Definition Types (e : ast.Expr) : option types.TypeAndValue :=
  match e with
  | ast.Ident_ id =>
      if String.eqb (ast.Name id) "int"
      then Some (types.mkTypeAndValue (Some int_))
      else if String.eqb (ast.Name id) "one"
              || String.eqb (ast.Name id) "two"
      then Some (types.mkTypeAndValue (Some ptr_int))
      else None
  | ast.StarExpr _ (ast.Ident_ id) =>
      if String.eqb (ast.Name id) "int"
      then Some (types.mkTypeAndValue (Some ptr_int))
      else Some (types.mkTypeAndValue (Some int_))
  | ast.BinaryExpr _ _ _ _ =>
      Some (types.mkTypeAndValue (Some (types.Typ types.UntypedBool)))
  | _ => None
  end.

Definition objects (id : ast.Ident) : option types.Object :=
  if String.eqb (ast.Name id) "one" || String.eqb (ast.Name id) "two"
  then Some (types.mkObject (ast.Name id) (Some ptr_int))
  else None.

Definition info : types.Info := types.mkInfo Types objects objects.

(** The line table of the file: the offset at which each line starts. *)
Definition lines : list Z :=
  [0; 16; 17; 44; 58; 72; 73; 90; 176; 179; 180; 199; 243; 246].

(** [fset.Position(p)] for a set holding one file, whose first byte has
    position 1, from the file's line table. *)
Fixpoint position (filename : string) (starts : list Z)
  (line start offset : Z) : token.Position :=
  match starts with
  | [] => token.mkPosition filename offset line (offset - start + 1)
  | next :: rest =>
      if offset <? next
      then token.mkPosition filename offset line (offset - start + 1)
      else position filename rest (line + 1) next offset
  end.

Definition fset : token.FileSet :=
  token.mkFileSet (fun p => position "example/main.go" (tl lines) 1 0 (p - 1)).

Definition pkg : Package := mkPackage "example" fset [file] info.

(** The nodes the traversal reaches before and after [one == two], and
    before and after [*one == *two]. *)
Definition events : list ast.Node :=
  inspector.events (inspector.New [file]).

Definition before_cmp_pointers : list ast.Node := firstn 20 events.
Definition after_cmp_pointers : list ast.Node := skipn 21 events.
Definition before_cmp_values : list ast.Node := firstn 25 events.
Definition after_cmp_values : list ast.Node := skipn 26 events.

End example.

(* ================================================================== *)
(** ** A two-declaration unit, for any operator and operand type

    [package p], then [var _ = a OP b], then [var a, b T], where the type
    expression [T] and the type the checker gives [a] and [b] are
    parameters. *)

Module sample.

(** The length of an operator's text. *)
Definition opLen (op : token.Token) : Z :=
  match op with
  | token.ADD | token.SUB | token.MUL | token.QUO | token.REM
  | token.AND | token.OR | token.XOR | token.LSS | token.GTR => 1
  | _ => 2
  end.

(** [a OP b], at offset 19 of the file. *)
Definition cmp (op : token.Token) : ast.Expr :=
  ast.BinaryExpr (example.ident 20 "a") 22 op
    (example.ident (23 + opLen op) "b").

(** The type expressions [*T], [**T] and [T] for a type name [T], at the
    position where the second declaration has its type. *)
Definition typePos (op : token.Token) : token.Pos := 34 + opLen op.

Definition starT (op : token.Token) (T : string) : ast.Expr :=
  ast.StarExpr (typePos op) (example.ident (typePos op + 1) T).

Definition starStarT (op : token.Token) (T : string) : ast.Expr :=
  ast.StarExpr (typePos op)
    (ast.StarExpr (typePos op + 1) (example.ident (typePos op + 2) T)).

Definition nameT (op : token.Token) (T : string) : ast.Expr :=
  example.ident (typePos op) T.

Definition file (op : token.Token) (texpr : ast.Expr) : ast.File :=
  ast.mkFile 1 (ast.mkIdent 9 "p")
    [ast.GenDecl_
       (ast.mkGenDecl 12 token.VAR token.NoPos
          [ast.mkValueSpec [ast.mkIdent 16 "_"] None [cmp op]] token.NoPos);
     ast.GenDecl_
       (ast.mkGenDecl (25 + opLen op) token.VAR token.NoPos
          [ast.mkValueSpec
             [ast.mkIdent (29 + opLen op) "a"; ast.mkIdent (32 + opLen op) "b"]
             (Some texpr) []] token.NoPos)].

(** The checker's tables: [a] and [b] have type [t], or none when [t] is
    nil; a binary expression is an untyped boolean. *)
Definition Types (t : option types.GoType) (e : ast.Expr)
  : option types.TypeAndValue :=
  match e with
  | ast.Ident_ id =>
      if String.eqb (ast.Name id) "a" || String.eqb (ast.Name id) "b"
      then match t with
           | Some ty => Some (types.mkTypeAndValue (Some ty))
           | None => None
           end
      else None
  | ast.BinaryExpr _ _ _ _ =>
      Some (types.mkTypeAndValue (Some (types.Typ types.UntypedBool)))
  | _ => None
  end.

Definition info (t : option types.GoType) : types.Info :=
  types.mkInfo (Types t) (fun _ => None) (fun _ => None).

Definition fset (op : token.Token) : token.FileSet :=
  token.mkFileSet
    (fun p => example.position "p.go" [10; 11; 24 + opLen op] 1 0 (p - 1)).

Definition pkg (op : token.Token) (texpr : ast.Expr)
  (t : option types.GoType) : Package :=
  mkPackage "p" (fset op) [file op texpr] (info t).

(** The nodes the traversal reaches before and after [a OP b]. *)
Definition before (op : token.Token) (texpr : ast.Expr) : list ast.Node :=
  firstn 5 (inspector.events (inspector.New [file op texpr])).

Definition after (op : token.Token) (texpr : ast.Expr) : list ast.Node :=
  skipn 6 (inspector.events (inspector.New [file op texpr])).

(** A unit with two comparisons: [package p], [var _ = a == b],
    [var _ = a != b], [var a, b *int]. *)
Definition file2 : ast.File :=
  ast.mkFile 1 (ast.mkIdent 9 "p")
    [ast.GenDecl_
       (ast.mkGenDecl 12 token.VAR token.NoPos
          [ast.mkValueSpec [ast.mkIdent 16 "_"] None
             [ast.BinaryExpr (example.ident 20 "a") 22 token.EQL
                (example.ident 25 "b")]] token.NoPos);
     ast.GenDecl_
       (ast.mkGenDecl 27 token.VAR token.NoPos
          [ast.mkValueSpec [ast.mkIdent 31 "_"] None
             [ast.BinaryExpr (example.ident 35 "a") 37 token.NEQ
                (example.ident 40 "b")]] token.NoPos);
     ast.GenDecl_
       (ast.mkGenDecl 42 token.VAR token.NoPos
          [ast.mkValueSpec [ast.mkIdent 46 "a"; ast.mkIdent 49 "b"]
             (Some (ast.StarExpr 51 (example.ident 52 "int"))) []]
          token.NoPos)].

Definition fset2 : token.FileSet :=
  token.mkFileSet
    (fun p => example.position "p.go" [10; 11; 26; 41] 1 0 (p - 1)).

Definition pkg2 : Package :=
  mkPackage "p" fset2 [file2] (info (Some example.ptr_int)).

(** A unit with nested comparisons: [package p],
    [var _ = a == b && (a != b)], [var a, b *int]. *)
Definition inner : ast.Expr :=
  ast.BinaryExpr (example.ident 31 "a") 33 token.NEQ (example.ident 36 "b").

Definition nested : ast.Expr :=
  ast.BinaryExpr
    (ast.BinaryExpr (example.ident 20 "a") 22 token.EQL
       (example.ident 25 "b"))
    27 token.LAND (ast.ParenExpr 30 inner 37).

Definition file3 : ast.File :=
  ast.mkFile 1 (ast.mkIdent 9 "p")
    [ast.GenDecl_
       (ast.mkGenDecl 12 token.VAR token.NoPos
          [ast.mkValueSpec [ast.mkIdent 16 "_"] None [nested]] token.NoPos);
     ast.GenDecl_
       (ast.mkGenDecl 39 token.VAR token.NoPos
          [ast.mkValueSpec [ast.mkIdent 43 "a"; ast.mkIdent 46 "b"]
             (Some (ast.StarExpr 48 (example.ident 49 "int"))) []]
          token.NoPos)].

Definition fset3 : token.FileSet :=
  token.mkFileSet (fun p => example.position "p.go" [10; 11; 38] 1 0 (p - 1)).

Definition pkg3 : Package :=
  mkPackage "p" fset3 [file3] (info (Some example.ptr_int)).

End sample.

(* ================================================================== *)
(** ** The traversal, node by node *)

Lemma forEach_app {S A : Type} (l1 l2 : list A) (f : A -> M S unit) (s : S) :
  forEach (l1 ++ l2)%list f s = forEach l2 f (snd (forEach l1 f s)).
Proof.
  revert s; induction l1 as [|x l1 IH]; intros s; simpl.
  - reflexivity.
  - unfold bind. destruct (f x s) as [u s1]. apply IH.
Qed.

Example example_diagnostics :
  diagnostics example.pkg =
  [ {| analysis.Pos := 78;
       analysis.Message := "comparing pointers to basic types: int and int" |} ].
Proof. reflexivity. Qed.

Example example_parseDir :
  parseDir (fun _ => ([example.pkg], None)) "./example" =
  Returned
    (["example/main.go:7:5: comparing pointers to basic types: int and int"
      ++ newline], None).
Proof. reflexivity. Qed.

(** Without the result of [inspect.Analyzer] the type assertion of [run]
    panics. *)
Example run_without_inspector :
  fst (run (scanPass example.pkg any_nil) []) = Panicked.
Proof. reflexivity. Qed.

(** When the loader fails, [parseDir] returns its error and no result. *)
Example parseDir_load_error :
  parseDir (fun _ => ([], Some "no such directory")) "./missing" =
  Returned ([], Some "Failed to load packages: no such directory").
Proof. reflexivity. Qed.

(** The invalid type is a [*types.Basic] too, and so is
    [unsafe.Pointer]: the classifier takes both for basic. *)
Example invalid_type_is_basic :
  isBasicType (Some (types.Typ types.Invalid)) = true
  /\ isBasicType (Some (types.Typ types.UnsafePointer)) = true.
Proof. split; reflexivity. Qed.

Lemma run_func1_cases {S : Type} (pass : analysis.Pass S)
  (X Y : ast.Expr) (p : token.Pos) (Op : token.Token) :
  run_func1 pass (ast.ExprNode (ast.BinaryExpr X p Op Y)) =
  if isComparison Op then
    if isPointerType pass X && isPointerType pass Y then
      if isBasicType (getUnderlyingType pass X)
         && isBasicType (getUnderlyingType pass Y)
      then analysis.Report pass
             {| analysis.Pos := ast.Pos X;
                analysis.Message :=
                  "comparing pointers to basic types: "
                  ++ fmt_v (getUnderlyingType pass X) ++ " and "
                  ++ fmt_v (getUnderlyingType pass Y) |}
      else ret tt
    else ret tt
  else ret tt.
Proof. destruct Op; reflexivity. Qed.

Lemma run_func1_reportOf {S : Type} (pass : analysis.Pass S) (n : ast.Node) :
  run_func1 pass n =
  match reportOf (analysis.TypesInfo pass) n with
  | Some d => analysis.Report pass d
  | None => ret tt
  end.
Proof.
  destruct n as [|e| | | | | | |]; try reflexivity.
  destruct e as [| | | | | | | | |X p Op Y]; try reflexivity.
  rewrite run_func1_cases. unfold reportOf.
  destruct (isComparison Op); [|reflexivity].
  unfold isPointerType, getUnderlyingType.
  destruct (types.TypeOf (analysis.TypesInfo pass) X) as [tx|];
    [destruct tx; try reflexivity|reflexivity].
  destruct (types.TypeOf (analysis.TypesInfo pass) Y) as [ty|];
    [destruct ty; try reflexivity|reflexivity].
  simpl. unfold isBasicType.
  destruct (types.Underlying tx); try reflexivity;
    destruct (types.Underlying ty); reflexivity.
Qed.

Lemma selected_run_func1 {S : Type} (pass : analysis.Pass S) (n : ast.Node) :
  (if inspector.selected nodeFilter n then run_func1 pass n else ret tt) =
  run_func1 pass n.
Proof.
  destruct n as [|e| | | | | | |];
    try (destruct (inspector.selected _ _); reflexivity).
  destruct e; reflexivity.
Qed.

(** Whatever the callback of the pass, the traversal calls it on the
    diagnostics of the nodes, one after the other, and does nothing else
    to the state. *)
Lemma Preorder_run_func1 {S : Type} (pass : analysis.Pass S)
  (nodes : list ast.Node) (s : S) :
  inspector.Preorder (inspector.mkInspector nodes) nodeFilter
    (run_func1 pass) s =
  (tt, fold_left (fun s d => snd (analysis.Report pass d s))
         (reportsOf (analysis.TypesInfo pass) nodes) s).
Proof.
  unfold inspector.Preorder, reportsOf; simpl inspector.events.
  revert s; induction nodes as [|n nodes IH]; intros s;
    cbn [forEach flat_map].
  - reflexivity.
  - unfold bind. rewrite selected_run_func1, run_func1_reportOf.
    rewrite fold_left_app.
    destruct (reportOf (analysis.TypesInfo pass) n) as [d|];
      cbn [fold_left ret].
    + destruct (analysis.Report pass d s) as [u s1]. apply IH.
    + apply IH.
Qed.

Lemma fold_record (ds acc : list analysis.Diagnostic) :
  fold_left (fun s d => snd (record d s)) ds acc = (acc ++ ds)%list.
Proof.
  revert acc; induction ds as [|d ds IH]; intros acc; simpl.
  - now rewrite app_nil_r.
  - rewrite IH. unfold record; simpl. now rewrite <- app_assoc.
Qed.

Lemma visitNodes_reportsOf (pkg : Package) (nodes : list ast.Node) :
  visitNodes pkg nodes = reportsOf (Pkg_TypesInfo pkg) nodes.
Proof.
  unfold visitNodes. rewrite Preorder_run_func1. simpl.
  now rewrite fold_record.
Qed.

Lemma reportsOf_app (info : types.Info) (l1 l2 : list ast.Node) :
  reportsOf info (l1 ++ l2) = (reportsOf info l1 ++ reportsOf info l2)%list.
Proof. unfold reportsOf. apply flat_map_app. Qed.

Lemma scan_reportsOf (pkg : Package) :
  scan pkg =
  (Returned (any_nil, None),
   reportsOf (Pkg_TypesInfo pkg)
     (inspector.events (inspector.New (Syntax pkg)))).
Proof.
  unfold scan, run, inspect.Analyzer_Run.
  cbn [scanPass analysis.ResultOf analysis.Files fst].
  rewrite String.eqb_refl. unfold bind.
  destruct (inspector.New (Syntax pkg)) as [nodes].
  rewrite Preorder_run_func1.
  cbn [analysis.TypesInfo analysis.Report inspector.events ret].
  now rewrite fold_record.
Qed.

(** The diagnostics of a scan around one node of the traversal: those of
    the nodes before it, its own, and those of the nodes after it. *)
Lemma diagnostics_split (pkg : Package) (pre post : list ast.Node)
  (n : ast.Node) :
  inspector.events (inspector.New (Syntax pkg)) = (pre ++ n :: post)%list ->
  diagnostics pkg =
  (visitNodes pkg pre ++ visitNodes pkg [n] ++ visitNodes pkg post)%list.
Proof.
  intros E. unfold diagnostics. rewrite scan_reportsOf, E. simpl snd.
  rewrite !visitNodes_reportsOf.
  change (n :: post) with ([n] ++ post)%list.
  now rewrite !reportsOf_app.
Qed.

Lemma isComparison_In (op : token.Token) :
  isComparison op = true <-> In op comparisonOps.
Proof.
  unfold isComparison. rewrite existsb_exists. split.
  - intros [o [Hin Ho]]. destruct (token.Token_eq_dec o op); [|discriminate].
    now subst.
  - intros Hin. exists op. split; [assumption|].
    now destruct (token.Token_eq_dec op op).
Qed.

Lemma isComparison_not_In (op : token.Token) :
  isComparison op = false <-> ~ In op comparisonOps.
Proof.
  rewrite <- isComparison_In. now destruct (isComparison op).
Qed.

(** A visit that reports: both operands are pointers to types whose
    underlying type is basic, under one of the six operators. *)
Lemma reportOf_basic_pair (info : types.Info) (X Y : ast.Expr)
  (p : token.Pos) (Op : token.Token) (l r : types.GoType)
  (lk rk : types.BasicKind) (ln rn : string) :
  In Op comparisonOps ->
  types.TypeOf info X = Some (types.Pointer l) ->
  types.TypeOf info Y = Some (types.Pointer r) ->
  types.Underlying l = types.Basic lk ln ->
  types.Underlying r = types.Basic rk rn ->
  reportOf info (ast.ExprNode (ast.BinaryExpr X p Op Y)) =
  Some {| analysis.Pos := ast.Pos (ast.BinaryExpr X p Op Y);
          analysis.Message :=
            "comparing pointers to basic types: "
            ++ types.TypeString l ++ " and " ++ types.TypeString r |}.
Proof.
  intros Hop HX HY Hl Hr. apply isComparison_In in Hop.
  unfold reportOf. now rewrite Hop, HX, HY, Hl, Hr.
Qed.

(** A visit that stays silent because an operand is not of pointer type. *)
Lemma reportOf_not_pointer (info : types.Info) (X Y : ast.Expr)
  (p : token.Pos) (Op : token.Token) :
  (forall b, types.TypeOf info X <> Some (types.Pointer b)) \/
  (forall b, types.TypeOf info Y <> Some (types.Pointer b)) ->
  reportOf info (ast.ExprNode (ast.BinaryExpr X p Op Y)) = None.
Proof.
  intros H. unfold reportOf. destruct (isComparison Op); [|reflexivity].
  destruct (types.TypeOf info X) as [tx|]; [|reflexivity].
  destruct tx; try reflexivity.
  destruct (types.TypeOf info Y) as [ty|]; [|reflexivity].
  destruct ty; try reflexivity.
  destruct H as [H|H]; exfalso; eapply H; reflexivity.
Qed.

(** A visit that stays silent because a pointee is not basic. *)
Lemma reportOf_not_basic (info : types.Info) (X Y : ast.Expr)
  (p : token.Pos) (Op : token.Token) (l r : types.GoType) :
  types.TypeOf info X = Some (types.Pointer l) ->
  types.TypeOf info Y = Some (types.Pointer r) ->
  isBasicType (Some l) = false \/ isBasicType (Some r) = false ->
  reportOf info (ast.ExprNode (ast.BinaryExpr X p Op Y)) = None.
Proof.
  intros HX HY H. unfold reportOf. rewrite HX, HY.
  destruct (isComparison Op); [|reflexivity].
  unfold isBasicType in H.
  destruct (types.Underlying l); try reflexivity;
    destruct (types.Underlying r); try reflexivity.
  destruct H; discriminate.
Qed.

(** A visit that stays silent because the operator is not one of the
    six. *)
Lemma reportOf_other_operator (info : types.Info) (X Y : ast.Expr)
  (p : token.Pos) (Op : token.Token) :
  ~ In Op comparisonOps ->
  reportOf info (ast.ExprNode (ast.BinaryExpr X p Op Y)) = None.
Proof.
  intros H. apply isComparison_not_In in H. unfold reportOf. now rewrite H.
Qed.

Lemma visitNodes_one (pkg : Package) (n : ast.Node) :
  visitNodes pkg [n] =
  match reportOf (Pkg_TypesInfo pkg) n with
  | Some d => [d]
  | None => []
  end.
Proof.
  rewrite visitNodes_reportsOf. unfold reportsOf. simpl.
  now rewrite app_nil_r.
Qed.

Lemma diagnostics_reported (pkg : Package) (pre post : list ast.Node)
  (n : ast.Node) (d : analysis.Diagnostic) :
  inspector.events (inspector.New (Syntax pkg)) = (pre ++ n :: post)%list ->
  reportOf (Pkg_TypesInfo pkg) n = Some d ->
  diagnostics pkg = (visitNodes pkg pre ++ [d] ++ visitNodes pkg post)%list.
Proof.
  intros E H. rewrite (diagnostics_split pkg pre post n E).
  now rewrite visitNodes_one, H.
Qed.

Lemma diagnostics_silent (pkg : Package) (pre post : list ast.Node)
  (n : ast.Node) :
  inspector.events (inspector.New (Syntax pkg)) = (pre ++ n :: post)%list ->
  reportOf (Pkg_TypesInfo pkg) n = None ->
  diagnostics pkg = (visitNodes pkg pre ++ visitNodes pkg post)%list.
Proof.
  intros E H. rewrite (diagnostics_split pkg pre post n E).
  now rewrite visitNodes_one, H.
Qed.

(* ================================================================== *)
(** ** The claims *)

(** C1.  A binary expression under one of the six operators ==, !=, <, >,
    <=, >= whose operands both have a pointer type with a basic pointee
    makes the scan report exactly one diagnostic for it: between the
    diagnostics of the nodes before and after it stands the single
    diagnostic positioned at the expression, whose message is
    "comparing pointers to basic types: L and R" for the names L and R of
    the left and right pointee types; and whatever the callback of the
    pass, the visit of the expression is exactly one call of it. *)
Theorem C1_basic_pointer_pair_reported
  (pkg : Package) (pre post : list ast.Node) (X Y : ast.Expr)
  (OpPos : token.Pos) (Op : token.Token) (l r : types.GoType)
  (lk rk : types.BasicKind) (ln rn : string) :
  inspector.events (inspector.New (Syntax pkg)) =
    (pre ++ ast.ExprNode (ast.BinaryExpr X OpPos Op Y) :: post)%list ->
  In Op comparisonOps ->
  types.TypeOf (Pkg_TypesInfo pkg) X = Some (types.Pointer l) ->
  types.TypeOf (Pkg_TypesInfo pkg) Y = Some (types.Pointer r) ->
  types.Underlying l = types.Basic lk ln ->
  types.Underlying r = types.Basic rk rn ->
  let d := {| analysis.Pos := ast.Pos (ast.BinaryExpr X OpPos Op Y);
              analysis.Message :=
                "comparing pointers to basic types: "
                ++ types.TypeString l ++ " and " ++ types.TypeString r |} in
  diagnostics pkg = (visitNodes pkg pre ++ [d] ++ visitNodes pkg post)%list
  /\ forall (S : Type) (pass : analysis.Pass S),
       analysis.TypesInfo pass = Pkg_TypesInfo pkg ->
       run_func1 pass (ast.ExprNode (ast.BinaryExpr X OpPos Op Y)) =
       analysis.Report pass d.
Proof.
  intros E Hop HX HY Hl Hr d.
  pose proof (reportOf_basic_pair (Pkg_TypesInfo pkg) X Y OpPos Op l r
                lk rk ln rn Hop HX HY Hl Hr) as H.
  split.
  - exact (diagnostics_reported pkg pre post _ d E H).
  - intros S pass Hinfo. rewrite run_func1_reportOf, Hinfo.
    fold d in H. now rewrite H.
Qed.

Lemma C1_witness :
  diagnostics example.pkg =
  (visitNodes example.pkg example.before_cmp_pointers
   ++ [ {| analysis.Pos := 78;
           analysis.Message :=
             "comparing pointers to basic types: int and int" |} ]
   ++ visitNodes example.pkg example.after_cmp_pointers)%list.
Proof.
  apply (C1_basic_pointer_pair_reported example.pkg
           example.before_cmp_pointers example.after_cmp_pointers
           (example.ident 78 "one") (example.ident 85 "two") 82 token.EQL
           example.int_ example.int_ types.Int types.Int "int" "int").
  - reflexivity.
  - simpl; auto.
  - reflexivity.
  - reflexivity.
  - reflexivity.
  - reflexivity.
Defined.

Lemma isPointerType_true {S : Type} (pass : analysis.Pass S) (e : ast.Expr) :
  isPointerType pass e = true ->
  exists b, types.TypeOf (analysis.TypesInfo pass) e = Some (types.Pointer b).
Proof.
  unfold isPointerType.
  destruct (types.TypeOf (analysis.TypesInfo pass) e) as [t|];
    [|discriminate].
  destruct t; try discriminate. intros _. now eexists.
Qed.

Lemma getUnderlyingType_pointer {S : Type} (pass : analysis.Pass S)
  (e : ast.Expr) (b : types.GoType) :
  types.TypeOf (analysis.TypesInfo pass) e = Some (types.Pointer b) ->
  getUnderlyingType pass e = Some b.
Proof. intros H. unfold getUnderlyingType. now rewrite H. Qed.


(** C2.  A comparison under one of the six operators with an operand whose
    static type is not a pointer type makes the scan report nothing for
    it: the visit of the expression reports no diagnostic and leaves the
    state of any pass as it was, and the diagnostics of the scan are those
    of the nodes before and after the expression. *)
Theorem C2_non_pointer_operand_not_reported
  (pkg : Package) (pre post : list ast.Node) (X Y : ast.Expr)
  (OpPos : token.Pos) (Op : token.Token) :
  inspector.events (inspector.New (Syntax pkg)) =
    (pre ++ ast.ExprNode (ast.BinaryExpr X OpPos Op Y) :: post)%list ->
  In Op comparisonOps ->
  (forall b, types.TypeOf (Pkg_TypesInfo pkg) X <> Some (types.Pointer b)) \/
  (forall b, types.TypeOf (Pkg_TypesInfo pkg) Y <> Some (types.Pointer b)) ->
  visitNodes pkg [ast.ExprNode (ast.BinaryExpr X OpPos Op Y)] = []
  /\ diagnostics pkg = (visitNodes pkg pre ++ visitNodes pkg post)%list
  /\ forall (S : Type) (pass : analysis.Pass S),
       analysis.TypesInfo pass = Pkg_TypesInfo pkg ->
       run_func1 pass (ast.ExprNode (ast.BinaryExpr X OpPos Op Y)) = ret tt.
Proof.
  intros E _ H.
  pose proof (reportOf_not_pointer (Pkg_TypesInfo pkg) X Y OpPos Op H) as R.
  split; [|split].
  - now rewrite visitNodes_one, R.
  - exact (diagnostics_silent pkg pre post _ E R).
  - intros S pass Hinfo. now rewrite run_func1_reportOf, Hinfo, R.
Qed.

Lemma C2_witness :
  visitNodes example.pkg [ast.ExprNode example.cmp_values] = []
  /\ diagnostics example.pkg =
     (visitNodes example.pkg example.before_cmp_values
      ++ visitNodes example.pkg example.after_cmp_values)%list.
Proof.
  destruct (C2_non_pointer_operand_not_reported example.pkg
              example.before_cmp_values example.after_cmp_values
              (ast.StarExpr 185 (example.ident 186 "one"))
              (ast.StarExpr 193 (example.ident 194 "two")) 190 token.EQL)
    as [H1 [H2 _]].
  - reflexivity.
  - simpl; auto.
  - left. intros b H. vm_compute in H. discriminate.
  - split; [exact H1 | exact H2].
Defined.





(** C4.  A comparison of two operands of pointer-to-pointer type: the
    pointee of each is itself a pointer, which the classifier does not
    take for basic, and the scan reports nothing for the expression. *)
Theorem C4_pointer_to_pointer_not_reported
  (pkg : Package) (pre post : list ast.Node) (X Y : ast.Expr)
  (OpPos : token.Pos) (Op : token.Token) (T U : types.GoType) :
  inspector.events (inspector.New (Syntax pkg)) =
    (pre ++ ast.ExprNode (ast.BinaryExpr X OpPos Op Y) :: post)%list ->
  In Op comparisonOps ->
  types.TypeOf (Pkg_TypesInfo pkg) X = Some (types.Pointer (types.Pointer T)) ->
  types.TypeOf (Pkg_TypesInfo pkg) Y = Some (types.Pointer (types.Pointer U)) ->
  getUnderlyingType (scanPass pkg any_nil) X = Some (types.Pointer T)
  /\ getUnderlyingType (scanPass pkg any_nil) Y = Some (types.Pointer U)
  /\ isBasicType (Some (types.Pointer T)) = false
  /\ isBasicType (Some (types.Pointer U)) = false
  /\ visitNodes pkg [ast.ExprNode (ast.BinaryExpr X OpPos Op Y)] = []
  /\ diagnostics pkg = (visitNodes pkg pre ++ visitNodes pkg post)%list.
Proof.
  intros E _ HX HY.
  assert (R : reportOf (Pkg_TypesInfo pkg)
                (ast.ExprNode (ast.BinaryExpr X OpPos Op Y)) = None).
  { apply (reportOf_not_basic _ X Y OpPos Op _ _ HX HY). now left. }
  repeat split; try reflexivity.
  - now apply getUnderlyingType_pointer.
  - now apply getUnderlyingType_pointer.
  - now rewrite visitNodes_one, R.
  - exact (diagnostics_silent pkg pre post _ E R).
Qed.

Lemma C4_witness :
  let pkg := sample.pkg token.NEQ (sample.starStarT token.NEQ "int")
               (Some (types.Pointer example.ptr_int)) in
  isBasicType (Some example.ptr_int) = false
  /\ visitNodes pkg [ast.ExprNode (sample.cmp token.NEQ)] = []
  /\ diagnostics pkg =
     (visitNodes pkg
        (sample.before token.NEQ (sample.starStarT token.NEQ "int"))
      ++ visitNodes pkg
           (sample.after token.NEQ (sample.starStarT token.NEQ "int")))%list.
Proof.
  intros pkg.
  destruct (C4_pointer_to_pointer_not_reported pkg
              (sample.before token.NEQ (sample.starStarT token.NEQ "int"))
              (sample.after token.NEQ (sample.starStarT token.NEQ "int"))
              (example.ident 20 "a") (example.ident 25 "b") 22 token.NEQ
              example.int_ example.int_)
    as [_ [_ [H1 [_ [H2 H3]]]]].
  - reflexivity.
  - simpl; auto.
  - reflexivity.
  - reflexivity.
  - repeat split; assumption.
Defined.

(** C5.  A comparison of two pointers whose pointees are named types with
    a basic underlying type: the classifier resolves each named type to
    its underlying type and takes it for basic, and the scan reports one
    diagnostic for the expression, which names the two named types. *)
Theorem C5_named_basic_pointee_reported
  (pkg : Package) (pre post : list ast.Node) (X Y : ast.Expr)
  (OpPos : token.Pos) (Op : token.Token) (nx ny : string)
  (ux uy : types.GoType) (kx ky : types.BasicKind) (sx sy : string) :
  inspector.events (inspector.New (Syntax pkg)) =
    (pre ++ ast.ExprNode (ast.BinaryExpr X OpPos Op Y) :: post)%list ->
  In Op comparisonOps ->
  types.TypeOf (Pkg_TypesInfo pkg) X
    = Some (types.Pointer (types.Named nx ux)) ->
  types.TypeOf (Pkg_TypesInfo pkg) Y
    = Some (types.Pointer (types.Named ny uy)) ->
  types.Underlying ux = types.Basic kx sx ->
  types.Underlying uy = types.Basic ky sy ->
  types.Underlying (types.Named nx ux) = types.Basic kx sx
  /\ types.Underlying (types.Named ny uy) = types.Basic ky sy
  /\ isBasicType (getUnderlyingType (scanPass pkg any_nil) X) = true
  /\ isBasicType (getUnderlyingType (scanPass pkg any_nil) Y) = true
  /\ diagnostics pkg =
     (visitNodes pkg pre
      ++ [ {| analysis.Pos := ast.Pos (ast.BinaryExpr X OpPos Op Y);
              analysis.Message :=
                "comparing pointers to basic types: " ++ nx ++ " and " ++ ny |} ]
      ++ visitNodes pkg post)%list.
Proof.
  intros E Hop HX HY Hx Hy.
  pose proof (reportOf_basic_pair (Pkg_TypesInfo pkg) X Y OpPos Op
                (types.Named nx ux) (types.Named ny uy) kx ky sx sy
                Hop HX HY Hx Hy) as R.
  repeat split.
  - exact Hx.
  - exact Hy.
  - rewrite (getUnderlyingType_pointer (scanPass pkg any_nil) X _ HX).
    unfold isBasicType. simpl types.Underlying. now rewrite Hx.
  - rewrite (getUnderlyingType_pointer (scanPass pkg any_nil) Y _ HY).
    unfold isBasicType. simpl types.Underlying. now rewrite Hy.
  - exact (diagnostics_reported pkg pre post _ _ E R).
Qed.

Lemma C5_witness :
  let MyInt := types.Named "p.MyInt" (types.Typ types.Int) in
  let pkg := sample.pkg token.LSS (sample.starT token.LSS "MyInt")
               (Some (types.Pointer MyInt)) in
  diagnostics pkg =
  (visitNodes pkg (sample.before token.LSS (sample.starT token.LSS "MyInt"))
   ++ [ {| analysis.Pos := 20;
           analysis.Message :=
             "comparing pointers to basic types: p.MyInt and p.MyInt" |} ]
   ++ visitNodes pkg
        (sample.after token.LSS (sample.starT token.LSS "MyInt")))%list.
Proof.
  intros MyInt pkg.
  apply (C5_named_basic_pointee_reported pkg
           (sample.before token.LSS (sample.starT token.LSS "MyInt"))
           (sample.after token.LSS (sample.starT token.LSS "MyInt"))
           (example.ident 20 "a") (example.ident 24 "b") 22 token.LSS
           "p.MyInt" "p.MyInt" (types.Typ types.Int) (types.Typ types.Int)
           types.Int types.Int "int" "int").
  - reflexivity.
  - simpl; auto.
  - reflexivity.
  - reflexivity.
  - reflexivity.
  - reflexivity.
Defined.

(** C6.  Each of the six operators ==, !=, <, >, <=, >= makes the scan
    report a comparison of two pointers to basic types, in every unit and
    so in a unit where it is the only operator; and a binary expression
    under any other operator is never reported, whatever its operands. *)
Theorem C6_operator_coverage :
  (forall Op : token.Token, In Op comparisonOps ->
     (forall (pkg : Package) (pre post : list ast.Node) (X Y : ast.Expr)
             (OpPos : token.Pos) (l r : types.GoType)
             (lk rk : types.BasicKind) (ln rn : string),
        inspector.events (inspector.New (Syntax pkg)) =
          (pre ++ ast.ExprNode (ast.BinaryExpr X OpPos Op Y) :: post)%list ->
        types.TypeOf (Pkg_TypesInfo pkg) X = Some (types.Pointer l) ->
        types.TypeOf (Pkg_TypesInfo pkg) Y = Some (types.Pointer r) ->
        types.Underlying l = types.Basic lk ln ->
        types.Underlying r = types.Basic rk rn ->
        diagnostics pkg =
        (visitNodes pkg pre
         ++ [ {| analysis.Pos := ast.Pos X;
                 analysis.Message :=
                   "comparing pointers to basic types: "
                   ++ types.TypeString l ++ " and " ++ types.TypeString r |} ]
         ++ visitNodes pkg post)%list)
     /\ diagnostics
          (sample.pkg Op (sample.starT Op "int") (Some example.ptr_int)) =
        [ {| analysis.Pos := 20;
             analysis.Message :=
               "comparing pointers to basic types: int and int" |} ])
  /\ (forall Op : token.Token, ~ In Op comparisonOps ->
      forall (pkg : Package) (pre post : list ast.Node) (X Y : ast.Expr)
             (OpPos : token.Pos),
        inspector.events (inspector.New (Syntax pkg)) =
          (pre ++ ast.ExprNode (ast.BinaryExpr X OpPos Op Y) :: post)%list ->
        visitNodes pkg [ast.ExprNode (ast.BinaryExpr X OpPos Op Y)] = []
        /\ diagnostics pkg = (visitNodes pkg pre ++ visitNodes pkg post)%list
        /\ forall (S : Type) (pass : analysis.Pass S),
             run_func1 pass (ast.ExprNode (ast.BinaryExpr X OpPos Op Y))
             = ret tt).
Proof.
  split.
  - intros Op Hop. split.
    + intros pkg pre post X Y OpPos l r lk rk ln rn E HX HY Hl Hr.
      pose proof (reportOf_basic_pair (Pkg_TypesInfo pkg) X Y OpPos Op l r
                    lk rk ln rn Hop HX HY Hl Hr) as R.
      exact (diagnostics_reported pkg pre post _ _ E R).
    + simpl in Hop.
      destruct Hop as [H|[H|[H|[H|[H|[H|[]]]]]]]; subst Op; reflexivity.
  - intros Op Hop pkg pre post X Y OpPos E.
    pose proof (reportOf_other_operator (Pkg_TypesInfo pkg) X Y OpPos Op Hop)
      as R.
    split; [|split].
    + now rewrite visitNodes_one, R.
    + exact (diagnostics_silent pkg pre post _ E R).
    + intros S pass. rewrite run_func1_reportOf.
      now rewrite (reportOf_other_operator _ X Y OpPos Op Hop).
Qed.

Lemma C6_witness :
  diagnostics
    (sample.pkg token.GEQ (sample.starT token.GEQ "int")
       (Some example.ptr_int)) =
  [ {| analysis.Pos := 20;
       analysis.Message := "comparing pointers to basic types: int and int" |} ]
  /\ diagnostics
       (sample.pkg token.SUB (sample.starT token.SUB "int")
          (Some example.ptr_int)) =
     (visitNodes
        (sample.pkg token.SUB (sample.starT token.SUB "int")
           (Some example.ptr_int))
        (sample.before token.SUB (sample.starT token.SUB "int"))
      ++ visitNodes
           (sample.pkg token.SUB (sample.starT token.SUB "int")
              (Some example.ptr_int))
           (sample.after token.SUB (sample.starT token.SUB "int")))%list.
Proof.
  destruct C6_operator_coverage as [Hsix Hother]. split.
  - apply (Hsix token.GEQ). simpl; auto 10.
  - assert (Hop : ~ In token.SUB comparisonOps).
    { simpl. intros [H|[H|[H|[H|[H|[H|[]]]]]]]; discriminate. }
    destruct (Hother token.SUB Hop
                (sample.pkg token.SUB (sample.starT token.SUB "int")
                   (Some example.ptr_int))
                (sample.before token.SUB (sample.starT token.SUB "int"))
                (sample.after token.SUB (sample.starT token.SUB "int"))
                (example.ident 20 "a") (example.ident 24 "b") 22)
      as [_ [H _]].
    + reflexivity.
    + exact H.
Defined.

(** [run] returns whenever the pass holds an inspector, and what it
    returns is [nil, nil]. *)
Lemma run_returns {S : Type} (pass : analysis.Pass S)
  (insp : inspector.Inspector) (s : S) :
  analysis.ResultOf pass inspect.Analyzer_Name = any_Inspector insp ->
  fst (run pass s) = Returned (any_nil, None).
Proof.
  intros H. unfold run. rewrite H. unfold bind.
  now destruct (inspector.Preorder insp nodeFilter (run_func1 pass) s).
Qed.

(** [run] never returns an error. *)
Lemma run_no_error {S : Type} (pass : analysis.Pass S) (s : S)
  (result : any) (err : string) :
  fst (run pass s) <> Returned (result, Some err).
Proof.
  unfold run.
  destruct (analysis.ResultOf pass inspect.Analyzer_Name) as [|insp|];
    try (simpl; discriminate).
  unfold bind.
  destruct (inspector.Preorder insp nodeFilter (run_func1 pass) s).
  simpl. discriminate.
Qed.

(** C7.  The scan does not fail: [run] returns [nil, nil] on every pass
    that holds the inspector, as every scan of a package does, and it
    returns an error on no pass at all.  An operand whose type the type
    information does not resolve is not a pointer and has no pointee to
    classify; the expression it belongs to is not reported, and the
    diagnostics of the nodes around it stay as they are. *)
Theorem C7_unresolved_type_is_not_an_error :
  (forall (S : Type) (pass : analysis.Pass S) (insp : inspector.Inspector)
          (s : S),
     analysis.ResultOf pass inspect.Analyzer_Name = any_Inspector insp ->
     fst (run pass s) = Returned (any_nil, None))
  /\ (forall (S : Type) (pass : analysis.Pass S) (s : S) (result : any)
             (err : string),
        fst (run pass s) <> Returned (result, Some err))
  /\ (forall pkg : Package, fst (scan pkg) = Returned (any_nil, None))
  /\ (forall (S : Type) (pass : analysis.Pass S) (e : ast.Expr),
        types.TypeOf (analysis.TypesInfo pass) e = None ->
        isPointerType pass e = false
        /\ getUnderlyingType pass e = None
        /\ isBasicType (getUnderlyingType pass e) = false)
  /\ (forall (pkg : Package) (pre post : list ast.Node) (X Y : ast.Expr)
             (OpPos : token.Pos) (Op : token.Token),
        inspector.events (inspector.New (Syntax pkg)) =
          (pre ++ ast.ExprNode (ast.BinaryExpr X OpPos Op Y) :: post)%list ->
        types.TypeOf (Pkg_TypesInfo pkg) X = None \/
        types.TypeOf (Pkg_TypesInfo pkg) Y = None ->
        visitNodes pkg [ast.ExprNode (ast.BinaryExpr X OpPos Op Y)] = []
        /\ diagnostics pkg = (visitNodes pkg pre ++ visitNodes pkg post)%list
        /\ fst (scan pkg) = Returned (any_nil, None)).
Proof.
  split; [|split; [|split; [|split]]].
  - intros S pass insp s H. exact (run_returns pass insp s H).
  - intros S pass s result err. apply run_no_error.
  - intros pkg. now rewrite scan_reportsOf.
  - intros S pass e H. unfold isPointerType, getUnderlyingType.
    rewrite H. repeat split.
  - intros pkg pre post X Y OpPos Op E H.
    assert (R : reportOf (Pkg_TypesInfo pkg)
                  (ast.ExprNode (ast.BinaryExpr X OpPos Op Y)) = None).
    { apply reportOf_not_pointer.
      destruct H as [H|H]; [left|right]; intros b; rewrite H; discriminate. }
    split; [|split].
    + now rewrite visitNodes_one, R.
    + exact (diagnostics_silent pkg pre post _ E R).
    + now rewrite scan_reportsOf.
Qed.

Lemma C7_witness :
  let pkg := sample.pkg token.EQL (sample.starT token.EQL "int") None in
  visitNodes pkg [ast.ExprNode (sample.cmp token.EQL)] = []
  /\ diagnostics pkg =
     (visitNodes pkg (sample.before token.EQL (sample.starT token.EQL "int"))
      ++ visitNodes pkg
           (sample.after token.EQL (sample.starT token.EQL "int")))%list
  /\ fst (scan pkg) = Returned (any_nil, None).
Proof.
  intros pkg.
  destruct C7_unresolved_type_is_not_an_error as [_ [_ [_ [_ H]]]].
  apply (H pkg (sample.before token.EQL (sample.starT token.EQL "int"))
           (sample.after token.EQL (sample.starT token.EQL "int"))
           (example.ident 20 "a") (example.ident 25 "b") 22 token.EQL).
  - reflexivity.
  - left. reflexivity.
Defined.

(** C9.  A comparison whose operands have named types with a pointer as
    underlying type: [isPointerType] looks at the type itself, not at its
    underlying type, and answers false, so the scan reports nothing for
    the expression, whatever the pointer refers to. *)
Theorem C9_named_pointer_type_not_reported
  (pkg : Package) (pre post : list ast.Node) (X Y : ast.Expr)
  (OpPos : token.Pos) (Op : token.Token) (nx ny : string)
  (ux uy bx by_ : types.GoType) :
  inspector.events (inspector.New (Syntax pkg)) =
    (pre ++ ast.ExprNode (ast.BinaryExpr X OpPos Op Y) :: post)%list ->
  In Op comparisonOps ->
  types.TypeOf (Pkg_TypesInfo pkg) X = Some (types.Named nx ux) ->
  types.TypeOf (Pkg_TypesInfo pkg) Y = Some (types.Named ny uy) ->
  types.Underlying (types.Named nx ux) = types.Pointer bx ->
  types.Underlying (types.Named ny uy) = types.Pointer by_ ->
  isPointerType (scanPass pkg any_nil) X = false
  /\ isPointerType (scanPass pkg any_nil) Y = false
  /\ visitNodes pkg [ast.ExprNode (ast.BinaryExpr X OpPos Op Y)] = []
  /\ diagnostics pkg = (visitNodes pkg pre ++ visitNodes pkg post)%list.
Proof.
  intros E _ HX HY _ _.
  assert (R : reportOf (Pkg_TypesInfo pkg)
                (ast.ExprNode (ast.BinaryExpr X OpPos Op Y)) = None).
  { apply reportOf_not_pointer. left. intros b. rewrite HX. discriminate. }
  repeat split.
  - unfold isPointerType. simpl analysis.TypesInfo. now rewrite HX.
  - unfold isPointerType. simpl analysis.TypesInfo. now rewrite HY.
  - now rewrite visitNodes_one, R.
  - exact (diagnostics_silent pkg pre post _ E R).
Qed.

Lemma C9_witness :
  let IntPtr := types.Named "p.IntPtr" example.ptr_int in
  let pkg := sample.pkg token.EQL (sample.nameT token.EQL "IntPtr")
               (Some IntPtr) in
  isPointerType (scanPass pkg any_nil) (example.ident 20 "a") = false
  /\ isPointerType (scanPass pkg any_nil) (example.ident 25 "b") = false
  /\ visitNodes pkg [ast.ExprNode (sample.cmp token.EQL)] = []
  /\ diagnostics pkg =
     (visitNodes pkg
        (sample.before token.EQL (sample.nameT token.EQL "IntPtr"))
      ++ visitNodes pkg
           (sample.after token.EQL (sample.nameT token.EQL "IntPtr")))%list.
Proof.
  intros IntPtr pkg.
  apply (C9_named_pointer_type_not_reported pkg
           (sample.before token.EQL (sample.nameT token.EQL "IntPtr"))
           (sample.after token.EQL (sample.nameT token.EQL "IntPtr"))
           (example.ident 20 "a") (example.ident 25 "b") 22 token.EQL
           "p.IntPtr" "p.IntPtr" example.ptr_int example.ptr_int
           example.int_ example.int_).
  - reflexivity.
  - simpl; auto.
  - reflexivity.
  - reflexivity.
  - reflexivity.
  - reflexivity.
Defined.

(** C10.  The variant that dispatches to [Visit] and classifies with
    [isBasicType2] is the analyzer of [main.go]: on every pass, whatever
    its type information, its inspector and its callback, and from every
    state, the two [run] end the same way in the same state, so they
    report the same diagnostics at the same positions in the same
    order. *)
Theorem C10_variant_run_equals_run :
  (forall t : option types.GoType, variant.isBasicType2 t = isBasicType t)
  /\ (forall (S : Type) (pass : analysis.Pass S) (n : ast.Node) (s : S),
        variant.Visit pass n s = run_func1 pass n s)
  /\ (forall (S : Type) (pass : analysis.Pass S) (s : S),
        variant.run pass s = run pass s)
  /\ (forall (pkg : Package) (result : any),
        variant.run (scanPass pkg result) [] = run (scanPass pkg result) []).
Proof.
  assert (HB : forall t, variant.isBasicType2 t = isBasicType t).
  { intros [t|]; reflexivity. }
  assert (HP : forall (S : Type) (pass : analysis.Pass S) (e : ast.Expr),
             variant.isPointerType pass e = isPointerType pass e
             /\ variant.getUnderlyingType pass e = getUnderlyingType pass e).
  { intros S pass e. split; reflexivity. }
  assert (HV : forall (S : Type) (pass : analysis.Pass S) (n : ast.Node),
             variant.Visit pass n = run_func1 pass n).
  { intros S pass n.
    destruct n as [|e| | | | | | |]; [reflexivity| |reflexivity..].
    destruct e as [| | | | | | | | |X p Op Y]; [reflexivity..|].
    unfold variant.Visit, run_func1.
    destruct (HP S pass X) as [-> ->]. destruct (HP S pass Y) as [-> ->].
    rewrite !HB. reflexivity. }
  assert (HR : forall (S : Type) (pass : analysis.Pass S) (s : S),
             variant.run pass s = run pass s).
  { intros S pass s. unfold variant.run, run.
    destruct (analysis.ResultOf pass inspect.Analyzer_Name) as [|insp|];
      [reflexivity| |reflexivity].
    unfold bind, inspector.Preorder.
    assert (F : forall l s0,
               forEach l
                 (fun n => if inspector.selected nodeFilter n
                           then variant.Visit pass n else ret tt) s0 =
               forEach l
                 (fun n => if inspector.selected nodeFilter n
                           then run_func1 pass n else ret tt) s0).
    { induction l as [|n l IH]; intros s0; cbn [forEach]; [reflexivity|].
      unfold bind. rewrite HV.
      destruct ((if inspector.selected nodeFilter n
                 then run_func1 pass n else ret tt) s0).
      apply IH. }
    now rewrite F. }
  split; [|split; [|split]].
  - exact HB.
  - intros S pass n s. now rewrite HV.
  - exact HR.
  - intros pkg result. apply HR.
Qed.

(* ================================================================== *)
(** ** Source order of the traversal *)

Lemma chain_le (spans : list span) (lo hi : Z) :
  chain lo spans hi = true -> lo <= hi.
Proof.
  revert lo; induction spans as [|s rest IH]; intros lo H; simpl in H.
  - now apply Z.leb_le.
  - apply andb_true_iff in H. destruct H as [H H3].
    apply andb_true_iff in H. destruct H as [H1 H2].
    apply Z.leb_le in H1, H2. specialize (IH _ H3). lia.
Qed.

Lemma ascending_nil (s : span) : ascending s [].
Proof. split; constructor. Qed.

Lemma ascending_weaken (a b a' b' : Z) (l : list token.Pos) :
  ascending (a, b) l -> a' <= a -> b <= b' -> ascending (a', b') l.
Proof.
  intros [Hs Hb] Ha Hb'. split; [assumption|].
  eapply Forall_impl; [|exact Hb]. simpl. intros p [Hq1 Hq2]. lia.
Qed.

Lemma ascending_app (a b c d : Z) (l1 l2 : list token.Pos) :
  ascending (a, b) l1 -> ascending (c, d) l2 ->
  a <= b -> b <= c -> c <= d ->
  ascending (a, d) (l1 ++ l2).
Proof.
  intros [Hs1 Hb1] [Hs2 Hb2] Hab Hbc Hcd. simpl in *. split.
  - induction l1 as [|p l1 IH]; simpl; [assumption|].
    inversion Hs1; subst. inversion Hb1; subst.
    constructor; [now apply IH|].
    apply Forall_app. split; [assumption|].
    eapply Forall_impl; [|exact Hb2]. simpl. intros q [Hq1 Hq2]. lia.
  - apply Forall_app. split.
    + eapply Forall_impl; [|exact Hb1]. simpl. intros q [Hq1 Hq2]. lia.
    + eapply Forall_impl; [|exact Hb2]. simpl. intros q [Hq1 Hq2]. lia.
Qed.

(** The parts of a node, each in ascending order within its span, follow
    one another in ascending order within the span of the node. *)
Lemma chain_ascending (spans : list span) (Ls : list (list token.Pos))
  (lo hi : Z) (L : list token.Pos) :
  chain lo spans hi = true ->
  Forall2 ascending spans Ls ->
  L = List.concat Ls ->
  ascending (lo, hi) L.
Proof.
  intros Hc HF ->. revert lo Hc.
  induction HF as [|s L spans Ls Hs HF IH]; intros lo Hc; simpl.
  - apply ascending_nil.
  - simpl in Hc. apply andb_true_iff in Hc. destruct Hc as [Hc H3].
    apply andb_true_iff in Hc. destruct Hc as [H1 H2].
    apply Z.leb_le in H1, H2. pose proof (chain_le _ _ _ H3) as Hle.
    apply ascending_weaken with (a := fst s) (b := hi); [|lia|lia].
    apply ascending_app with (b := snd s) (c := snd s); try lia.
    + now destruct s.
    + now apply IH.
Qed.

Lemma ascending_cons_lo (lo hi : Z) (l : list token.Pos) :
  ascending (lo, hi) l -> lo <= hi -> ascending (lo, hi) (lo :: l).
Proof.
  intros [Hs Hb] Hle. simpl in *. split.
  - constructor; [assumption|].
    eapply Forall_impl; [|exact Hb]. simpl. intros q [Hq1 Hq2]. lia.
  - constructor; [simpl; lia|assumption].
Qed.

Lemma Forall2_map_ascending {A : Type} (sp : A -> span)
  (ps : A -> list token.Pos) (l : list A) :
  Forall (fun a => ascending (sp a) (ps a)) l ->
  Forall2 ascending (map sp l) (map ps l).
Proof. induction 1; simpl; constructor; assumption. Qed.

Lemma Forall2_opt_ascending {A : Type} (sp : A -> span)
  (ps : A -> list token.Pos) (o : option A) :
  match o with Some a => ascending (sp a) (ps a) | None => True end ->
  Forall2 ascending (optSpan sp o)
    (match o with Some a => [ps a] | None => [] end).
Proof. destruct o; simpl; intros H; [constructor; [assumption|]|]; constructor. Qed.

Lemma Forall_wf {A : Type} (wf : A -> bool) (P : A -> Prop) (l : list A) :
  Forall (fun a => wf a = true -> P a) l ->
  forallb wf l = true ->
  Forall P l.
Proof.
  induction 1 as [|a l Ha Hl IH]; simpl; intros H; constructor;
    apply andb_true_iff in H; destruct H; auto.
Qed.

Lemma binPos_app (l1 l2 : list ast.Node) :
  binPos (l1 ++ l2) = (binPos l1 ++ binPos l2)%list.
Proof. unfold binPos. apply flat_map_app. Qed.

Lemma binPos_flat_map {A : Type} (walk : A -> list ast.Node) (l : list A) :
  binPos (flat_map walk l) = List.concat (map (fun a => binPos (walk a)) l).
Proof.
  induction l as [|a l IH]; simpl; [reflexivity|].
  now rewrite binPos_app, IH.
Qed.

Lemma binPos_idents (l : list ast.Ident) :
  binPos (flat_map ast.walkIdent l) = [].
Proof. induction l as [|a l IH]; simpl; [reflexivity|assumption]. Qed.

(** Induction on expressions, with the arguments of a call. *)
Lemma Expr_ind_nested (P : ast.Expr -> Prop) :
  (forall from to, P (ast.BadExpr from to)) ->
  (forall id, P (ast.Ident_ id)) ->
  (forall p k v, P (ast.BasicLit p k v)) ->
  (forall lp x rp, P x -> P (ast.ParenExpr lp x rp)) ->
  (forall x sel, P x -> P (ast.SelectorExpr x sel)) ->
  (forall x lb i rb, P x -> P i -> P (ast.IndexExpr x lb i rb)) ->
  (forall f lp args rp, P f -> Forall P args -> P (ast.CallExpr f lp args rp)) ->
  (forall star x, P x -> P (ast.StarExpr star x)) ->
  (forall p op x, P x -> P (ast.UnaryExpr p op x)) ->
  (forall x p op y, P x -> P y -> P (ast.BinaryExpr x p op y)) ->
  forall e, P e.
Proof.
  intros HBad HId HLit HParen HSel HIdx HCall HStar HUn HBin.
  fix IH 1. intros e. destruct e as [from to|id|p k v|lp x rp|x sel
    |x lb i rb|f lp args rp|star x|p op x|x p op y].
  - apply HBad.
  - apply HId.
  - apply HLit.
  - apply HParen, IH.
  - apply HSel, IH.
  - apply HIdx; apply IH.
  - apply HCall; [apply IH|].
    induction args as [|a args IHargs]; constructor; [apply IH|assumption].
  - apply HStar, IH.
  - apply HUn, IH.
  - apply HBin; apply IH.
Qed.

Lemma binPos_cons (n : ast.Node) (l : list ast.Node) :
  binPos (n :: l) =
  (match n with
   | ast.ExprNode (ast.BinaryExpr _ _ _ _ as b) => [ast.Pos b]
   | _ => []
   end ++ binPos l)%list.
Proof. reflexivity. Qed.

Ltac split_wf H :=
  repeat (apply andb_true_iff in H;
          let H' := fresh "Hc" in destruct H as [H H']).

Ltac by_chain parts :=
  eapply chain_ascending with (Ls := parts);
  [ match goal with Hc : chain _ _ _ = true |- _ => exact Hc end
  | repeat first [ apply Forall2_nil
                 | apply Forall2_cons
                 | apply Forall2_app
                 | apply ascending_nil
                 | apply Forall2_map_ascending
                 | apply Forall2_opt_ascending ];
    auto
  | simpl List.concat;
    rewrite ?binPos_app, ?binPos_flat_map, ?concat_app,
            ?app_nil_r, <- ?app_assoc;
    simpl List.concat; rewrite ?app_nil_r; try reflexivity ].

(** The binary expressions of a well-positioned expression are reached
    in ascending order of position, within the span of the expression. *)
Lemma walkExpr_ascending (e : ast.Expr) :
  wfExpr e = true -> ascending (exprSpan e) (binPos (ast.walkExpr e)).
Proof.
  induction e as [from to|id|p k v|lp x rp IHx|x sel IHx|x lb i rb IHx IHi
    |f lp args rp IHf IHargs|star x IHx|p op x IHx|x p op y IHx IHy]
    using Expr_ind_nested; intros H; cbn [ast.walkExpr] in *;
    rewrite binPos_cons; cbn [app]; unfold exprSpan in *;
    cbn [ast.Pos ast.End wfExpr] in *.
  - apply ascending_nil.
  - apply ascending_nil.
  - apply ascending_nil.
  - split_wf H. by_chain [[]; binPos (ast.walkExpr x); []].
  - split_wf H. by_chain [binPos (ast.walkExpr x); []].
  - split_wf H.
    by_chain [binPos (ast.walkExpr x); []; binPos (ast.walkExpr i); []].
  - split_wf H.
    match goal with Hw : forallb wfExpr args = true |- _ =>
      pose proof (Forall_wf _ _ _ IHargs Hw) as Hargs end.
    by_chain
      (binPos (ast.walkExpr f) :: []
       :: map (fun a => binPos (ast.walkExpr a)) args ++ [[]])%list.
  - split_wf H. by_chain [[]; binPos (ast.walkExpr x)].
  - split_wf H. by_chain [[]; binPos (ast.walkExpr x)].
  - split_wf H.
    apply ascending_cons_lo;
      [|match goal with Hc : chain _ _ _ = true |- _ =>
          exact (chain_le _ _ _ Hc) end].
    by_chain [binPos (ast.walkExpr x); []; binPos (ast.walkExpr y)].
Qed.

Lemma Forall_of_forallb {A : Type} (wf : A -> bool) (P : A -> Prop)
  (l : list A) :
  (forall a, wf a = true -> P a) -> forallb wf l = true -> Forall P l.
Proof.
  intros H. induction l as [|a l IH]; simpl; intros Hl; constructor;
    apply andb_true_iff in Hl; destruct Hl; auto.
Qed.

Lemma idents_ascending (names : list ast.Ident) :
  Forall (fun id => ascending (identSpan id) (binPos (ast.walkIdent id)))
    names.
Proof.
  induction names; constructor; [apply ascending_nil|assumption].
Qed.

Lemma walkField_ascending (f : ast.Field) :
  wfField f = true -> ascending (fieldSpan f) (binPos (ast.walkField f)).
Proof.
  intros H. unfold wfField in H. split_wf H.
  pose proof (walkExpr_ascending _ H) as HT.
  pose proof (idents_ascending (ast.Field_Names f)) as HN.
  unfold ast.walkField. rewrite binPos_cons. cbn [app]. unfold fieldSpan.
  by_chain (map (fun id => binPos (ast.walkIdent id)) (ast.Field_Names f)
            ++ [binPos (ast.walkExpr (ast.Field_Type f))])%list.
Qed.

Lemma walkFieldList_ascending (l : ast.FieldList) :
  wfFieldList l = true ->
  ascending (fieldListSpan l) (binPos (ast.walkFieldList l)).
Proof.
  intros H. unfold wfFieldList in H. split_wf H.
  pose proof (Forall_of_forallb _ _ _ walkField_ascending H) as HF.
  unfold ast.walkFieldList. rewrite binPos_cons. cbn [app].
  unfold fieldListSpan.
  by_chain (map (fun f => binPos (ast.walkField f)) (ast.List_ l)).
Qed.

Lemma walkSpec_ascending (s : ast.ValueSpec) :
  wfSpec s = true -> ascending (specSpan s) (binPos (ast.walkSpec s)).
Proof.
  intros H. unfold wfSpec in H. split_wf H.
  pose proof (idents_ascending (ast.Names s)) as HN.
  match goal with Hw : forallb wfExpr _ = true |- _ =>
    pose proof (Forall_of_forallb _ _ _ walkExpr_ascending Hw) as HV end.
  unfold ast.walkSpec. rewrite binPos_cons. cbn [app]. unfold specSpan.
  destruct (ast.Type_ s) as [t|]; cbn [ast.walkOpt optSpan] in *.
  - pose proof (walkExpr_ascending _ H) as HT.
    by_chain (map (fun id => binPos (ast.walkIdent id)) (ast.Names s)
              ++ [binPos (ast.walkExpr t)]
              ++ map (fun e => binPos (ast.walkExpr e)) (ast.Values s))%list.
  - by_chain (map (fun id => binPos (ast.walkIdent id)) (ast.Names s)
              ++ []
              ++ map (fun e => binPos (ast.walkExpr e)) (ast.Values s))%list.
Qed.

Lemma walkGenDecl_ascending (d : ast.GenDecl) :
  wfGenDecl d = true ->
  ascending (ast.GenDecl_Pos d, ast.GenDecl_End d)
    (binPos (ast.walkGenDecl d)).
Proof.
  intros H. unfold wfGenDecl in H. split_wf H.
  pose proof (Forall_of_forallb _ _ _ walkSpec_ascending H) as HS.
  unfold ast.walkGenDecl. rewrite binPos_cons. cbn [app].
  by_chain (map (fun s => binPos (ast.walkSpec s)) (ast.Specs d)).
Qed.

(** Induction on statements, with the statements of a block and the
    optional parts of an [if] and a [for]. *)
Lemma Stmt_ind_nested (P : ast.Stmt -> Prop) :
  (forall x, P (ast.ExprStmt x)) ->
  (forall lhs p tk rhs, P (ast.AssignStmt lhs p tk rhs)) ->
  (forall d, P (ast.DeclStmt d)) ->
  (forall r results, P (ast.ReturnStmt r results)) ->
  (forall lb list rb, Forall P list -> P (ast.BlockStmt lb list rb)) ->
  (forall i init cond body els,
     match init with Some st => P st | None => True end ->
     P body ->
     match els with Some st => P st | None => True end ->
     P (ast.IfStmt i init cond body els)) ->
  (forall f init cond post body,
     match init with Some st => P st | None => True end ->
     match post with Some st => P st | None => True end ->
     P body ->
     P (ast.ForStmt f init cond post body)) ->
  forall s, P s.
Proof.
  intros HExpr HAssign HDecl HRet HBlock HIf HFor.
  fix IH 1. intros s.
  destruct s as [x|lhs p tk rhs|d|r results|lb list rb
                 |i init cond body els|f init cond post body].
  - apply HExpr.
  - apply HAssign.
  - apply HDecl.
  - apply HRet.
  - apply HBlock.
    induction list as [|st list IHlist]; constructor; [apply IH|assumption].
  - apply HIf.
    + destruct init as [st|]; [apply IH|exact I].
    + apply IH.
    + destruct els as [st|]; [apply IH|exact I].
  - apply HFor.
    + destruct init as [st|]; [apply IH|exact I].
    + destruct post as [st|]; [apply IH|exact I].
    + apply IH.
Qed.

(** The binary expressions of a well-positioned statement are reached in
    ascending order of position, within the span of the statement. *)
Lemma walkStmt_ascending (s : ast.Stmt) :
  wfStmt s = true -> ascending (stmtSpan s) (binPos (ast.walkStmt s)).
Proof.
  induction s as [x|lhs p tk rhs|d|r results|lb list rb IHlist
                  |i init cond body els IHinit IHbody IHels
                  |f init cond post body IHinit IHpost IHbody]
    using Stmt_ind_nested; intros H; cbn [ast.walkStmt];
    rewrite binPos_cons; cbn [app]; unfold stmtSpan in *;
    cbn [wfStmt] in H.
  - exact (walkExpr_ascending x H).
  - split_wf H.
    pose proof (Forall_of_forallb _ _ _ walkExpr_ascending H) as HL.
    match goal with Hw : forallb wfExpr rhs = true |- _ =>
      pose proof (Forall_of_forallb _ _ _ walkExpr_ascending Hw) as HR end.
    by_chain (map (fun e => binPos (ast.walkExpr e)) lhs
              ++ [] :: map (fun e => binPos (ast.walkExpr e)) rhs)%list.
  - exact (walkGenDecl_ascending d H).
  - split_wf H.
    pose proof (Forall_of_forallb _ _ _ walkExpr_ascending H) as HR.
    by_chain ([] :: map (fun e => binPos (ast.walkExpr e)) results).
  - split_wf H.
    pose proof (Forall_wf _ _ _ IHlist H) as HL.
    by_chain ([] :: map (fun st => binPos (ast.walkStmt st)) list).
  - split_wf H.
    match goal with Hw : wfExpr cond = true |- _ =>
      pose proof (walkExpr_ascending _ Hw) as HC end.
    match goal with Hw : wfStmt body = true |- _ =>
      specialize (IHbody Hw) end.
    destruct init as [st1|]; destruct els as [st2|];
      cbn [optSpan app] in *.
    + specialize (IHinit H).
      match goal with Hw : wfStmt st2 = true |- _ =>
        specialize (IHels Hw) end.
      by_chain [[]; binPos (ast.walkStmt st1); binPos (ast.walkExpr cond);
                binPos (ast.walkStmt body); binPos (ast.walkStmt st2)].
    + specialize (IHinit H).
      by_chain [[]; binPos (ast.walkStmt st1); binPos (ast.walkExpr cond);
                binPos (ast.walkStmt body)].
    + match goal with Hw : wfStmt st2 = true |- _ =>
        specialize (IHels Hw) end.
      by_chain [[]; binPos (ast.walkExpr cond);
                binPos (ast.walkStmt body); binPos (ast.walkStmt st2)].
    + by_chain [[]; binPos (ast.walkExpr cond); binPos (ast.walkStmt body)].
  - split_wf H.
    match goal with Hw : wfStmt body = true |- _ =>
      specialize (IHbody Hw) end.
    destruct init as [st1|]; destruct cond as [c|]; destruct post as [st2|];
      cbn [optSpan app ast.walkOpt] in *;
      repeat match goal with
             | IH : ?A = true -> _, Hw : ?A = true |- _ => specialize (IH Hw)
             end;
      try match goal with Hw : wfExpr c = true |- _ =>
            pose proof (walkExpr_ascending _ Hw) as HC end.
    + by_chain [[]; binPos (ast.walkStmt st1); binPos (ast.walkExpr c);
                binPos (ast.walkStmt st2); binPos (ast.walkStmt body)].
    + by_chain [[]; binPos (ast.walkStmt st1); binPos (ast.walkExpr c);
                binPos (ast.walkStmt body)].
    + by_chain [[]; binPos (ast.walkStmt st1);
                binPos (ast.walkStmt st2); binPos (ast.walkStmt body)].
    + by_chain [[]; binPos (ast.walkStmt st1); binPos (ast.walkStmt body)].
    + by_chain [[]; binPos (ast.walkExpr c);
                binPos (ast.walkStmt st2); binPos (ast.walkStmt body)].
    + by_chain [[]; binPos (ast.walkExpr c); binPos (ast.walkStmt body)].
    + by_chain [[]; binPos (ast.walkStmt st2); binPos (ast.walkStmt body)].
    + by_chain [[]; binPos (ast.walkStmt body)].
Qed.

Lemma walkDecl_ascending (d : ast.Decl) :
  wfDecl d = true -> ascending (declSpan d) (binPos (ast.walkDecl d)).
Proof.
  destruct d as [g|name type body]; intros H; cbn [wfDecl] in H.
  - exact (walkGenDecl_ascending g H).
  - apply andb_true_iff in H. destruct H as [H Hc].
    apply andb_true_iff in H. destruct H as [H Hbody].
    apply andb_true_iff in H. destruct H as [H Hresults].
    pose proof (walkFieldList_ascending _ H) as HP.
    cbn [ast.walkDecl]. unfold ast.walkFuncType.
    rewrite binPos_cons. cbn [app]. rewrite !binPos_app, binPos_cons.
    cbn [app]. rewrite ?binPos_app. unfold declSpan.
    change (binPos (ast.walkIdent name)) with (@nil token.Pos). cbn [app].
    remember (binPos (ast.walkFieldList (ast.Params type))) as LP.
    destruct (ast.Results type) as [r|]; destruct body as [st|];
      cbn [optSpan app ast.walkOpt] in *;
      try (pose proof (walkFieldList_ascending _ Hresults) as HR;
           remember (binPos (ast.walkFieldList r)) as LR);
      try (pose proof (walkStmt_ascending _ Hbody) as HB;
           remember (binPos (ast.walkStmt st)) as LB).
    + by_chain [[]; LP; LR; LB].
    + by_chain [[]; LP; LR].
    + by_chain [[]; LP; LB].
    + by_chain [[]; LP].
Qed.

(** The binary expressions of a well-positioned file are reached in
    ascending order of position. *)
Lemma walkFile_ascending (f : ast.File) :
  wfFile f = true ->
  ascending (ast.Package f, File_End f) (binPos (ast.walkFile f)).
Proof.
  intros H. unfold wfFile in H. split_wf H.
  pose proof (Forall_of_forallb _ _ _ walkDecl_ascending H) as HD.
  unfold ast.walkFile. rewrite binPos_cons. cbn [app].
  by_chain ([] :: binPos (ast.walkIdent (ast.File_Name f))
            :: map (fun d => binPos (ast.walkDecl d)) (ast.Decls f)).
Qed.

Lemma reportOf_Some (info : types.Info) (n : ast.Node)
  (d : analysis.Diagnostic) :
  reportOf info n = Some d ->
  exists X p Op Y,
    n = ast.ExprNode (ast.BinaryExpr X p Op Y)
    /\ analysis.Pos d = ast.Pos (ast.BinaryExpr X p Op Y).
Proof.
  destruct n as [|e| | | | | | |]; try discriminate.
  destruct e as [| | | | | | | | |X p Op Y]; try discriminate.
  intros H. exists X, p, Op, Y. split; [reflexivity|].
  unfold reportOf in H.
  destruct (isComparison Op); [|discriminate].
  destruct (types.TypeOf info X) as [tx|]; [|discriminate].
  destruct tx; try discriminate.
  destruct (types.TypeOf info Y) as [ty|]; [|discriminate].
  destruct ty; try discriminate.
  destruct (types.Underlying tx); try discriminate.
  destruct (types.Underlying ty); try discriminate.
  now inversion H.
Qed.

Lemma qualifies_reportOf {S : Type} (pass : analysis.Pass S) (n : ast.Node) :
  qualifies pass n =
  match reportOf (analysis.TypesInfo pass) n with
  | Some _ => true
  | None => false
  end.
Proof.
  destruct n as [|e| | | | | | |]; try reflexivity.
  destruct e as [| | | | | | | | |X p Op Y]; try reflexivity.
  unfold qualifies, reportOf, isPointerType, getUnderlyingType.
  destruct (isComparison Op); [|reflexivity]. cbn [andb].
  destruct (types.TypeOf (analysis.TypesInfo pass) X) as [tx|];
    [destruct tx; try reflexivity|reflexivity].
  destruct (types.TypeOf (analysis.TypesInfo pass) Y) as [ty|];
    [destruct ty; try reflexivity|reflexivity].
  simpl. unfold isBasicType.
  destruct (types.Underlying tx); try reflexivity;
    destruct (types.Underlying ty); reflexivity.
Qed.

(** The diagnostics of a list of nodes are those of its qualifying
    comparisons, one each, in the order of the list. *)
Lemma reportsOf_qualifying (pkg : Package) (nodes : list ast.Node) :
  reportsOf (Pkg_TypesInfo pkg) nodes =
  flat_map (fun n => visitNodes pkg [n])
    (filter (qualifies (scanPass pkg any_nil)) nodes)
  /\ map analysis.Pos (reportsOf (Pkg_TypesInfo pkg) nodes) =
     map nodePos (filter (qualifies (scanPass pkg any_nil)) nodes).
Proof.
  induction nodes as [|n nodes [IH1 IH2]]; [split; reflexivity|].
  unfold reportsOf in *. cbn [flat_map filter].
  rewrite qualifies_reportOf. cbn [scanPass analysis.TypesInfo].
  destruct (reportOf (Pkg_TypesInfo pkg) n) as [d|] eqn:R.
  - cbn [flat_map map app]. rewrite visitNodes_one, R. cbn [app].
    destruct (reportOf_Some _ _ _ R) as [X [p [Op [Y [-> HP]]]]].
    split; [now rewrite IH1|]. rewrite IH2. cbn [nodePos].
    now rewrite HP.
  - cbn [app]. split; assumption.
Qed.

Lemma reportsOf_positions (info : types.Info) (nodes : list ast.Node) :
  incl (map analysis.Pos (reportsOf info nodes)) (binPos nodes).
Proof.
  induction nodes as [|n nodes IH]; [intros p []|].
  unfold reportsOf in *. cbn [flat_map]. rewrite map_app, binPos_cons.
  apply incl_app_app; [|exact IH].
  destruct (reportOf info n) as [d|] eqn:R; [|intros p []].
  destruct (reportOf_Some _ _ _ R) as [X [p [Op [Y [-> HP]]]]].
  cbn [map]. rewrite HP. apply incl_refl.
Qed.

(** The positions of the diagnostics are in ascending order wherever the
    positions of the binary expressions are. *)
Lemma reportsOf_sorted (info : types.Info) (nodes : list ast.Node) :
  StronglySorted Z.le (binPos nodes) ->
  StronglySorted Z.le (map analysis.Pos (reportsOf info nodes)).
Proof.
  induction nodes as [|n nodes IH]; intros H; [constructor|].
  rewrite binPos_cons in H.
  change (reportsOf info (n :: nodes))
    with (match reportOf info n with Some d => [d] | None => [] end
          ++ reportsOf info nodes)%list.
  destruct (reportOf info n) as [d|] eqn:R.
  - destruct (reportOf_Some _ _ _ R) as [X [p [Op [Y [-> HP]]]]].
    cbn [app map] in *. inversion H as [|q l Hs Hall]; subst.
    constructor; [now apply IH|].
    rewrite HP. apply Forall_forall. intros q Hq.
    apply (reportsOf_positions info nodes) in Hq.
    rewrite Forall_forall in Hall. now apply Hall.
  - cbn [app]. apply IH.
    destruct n as [|e| | | | | | |]; try exact H.
    destruct e; try exact H. cbn [app] in H. now inversion H.
Qed.

Lemma fold_parseDir_Report (pkg : Package) (ds : list analysis.Diagnostic)
  (results : list string) :
  fold_left (fun s d => snd (parseDir_Report pkg d s)) ds results =
  (results ++ map (resultLine pkg) ds)%list.
Proof.
  revert results; induction ds as [|d ds IH]; intros results; simpl.
  - now rewrite app_nil_r.
  - rewrite IH. unfold resultLine. now rewrite <- app_assoc.
Qed.

(** [parseDir] over the loaded packages: it returns, without an error,
    the lines of the diagnostics of each package, package after
    package. *)
Lemma parseDir_packages_results (pkgs : list Package)
  (results : list string) :
  parseDir_packages pkgs results =
  (Returned
     ((results ++ flat_map (fun p => map (resultLine p) (diagnostics p)) pkgs)
        %list, None),
   (results ++ flat_map (fun p => map (resultLine p) (diagnostics p)) pkgs)
     %list).
Proof.
  revert results; induction pkgs as [|pkg pkgs IH]; intros results.
  - simpl. now rewrite app_nil_r.
  - cbn [parseDir_packages inspect.Analyzer_Run analysis.Files flat_map].
    unfold bind, run, setResultOf.
    cbn [analysis.ResultOf]. rewrite String.eqb_refl.
    unfold bind. destruct (inspector.New (Syntax pkg)) as [nodes] eqn:E.
    rewrite Preorder_run_func1.
    cbn [analysis.TypesInfo analysis.Report ret].
    rewrite fold_parseDir_Report, IH, <- app_assoc.
    unfold diagnostics. rewrite scan_reportsOf, E. reflexivity.
Qed.

Lemma reportsOf_files (pkg : Package) (files : list ast.File) :
  reportsOf (Pkg_TypesInfo pkg) (flat_map ast.walkFile files) =
  flat_map (fun f => visitNodes pkg (ast.walkFile f)) files.
Proof.
  induction files as [|f fs IH]; [reflexivity|].
  cbn [flat_map]. rewrite reportsOf_app, IH.
  now rewrite visitNodes_reportsOf.
Qed.

(** C8.  The diagnostics of a scan are those of the qualifying
    comparisons of the unit, one each and positioned at it, in the order
    in which the pre-order, depth-first traversal reaches them: file after
    file as the caller supplied them and, inside a file whose positions
    are those of its source text, in ascending order of source position.
    The list only grows: what is reported after a part of the traversal
    stays, unchanged, at the front of what is reported after more of it,
    a node adds at most one diagnostic at the end, and [parseDir] keeps
    the lines it has and appends those of each package in turn. *)
Theorem C8_diagnostics_in_source_order (pkg : Package) :
  let events := inspector.events (inspector.New (Syntax pkg)) in
  let pass := scanPass pkg any_nil in
  events = flat_map ast.walkFile (Syntax pkg)
  /\ diagnostics pkg =
     flat_map (fun n => visitNodes pkg [n]) (filter (qualifies pass) events)
  /\ (forall n, qualifies pass n = true ->
        exists d, visitNodes pkg [n] = [d] /\ analysis.Pos d = nodePos n)
  /\ map analysis.Pos (diagnostics pkg) =
     map nodePos (filter (qualifies pass) events)
  /\ List.length (diagnostics pkg) =
     List.length (filter (qualifies pass) events)
  /\ diagnostics pkg =
     flat_map (fun f => visitNodes pkg (ast.walkFile f)) (Syntax pkg)
  /\ (forall f, In f (Syntax pkg) -> wfFile f = true ->
        StronglySorted Z.le
          (map analysis.Pos (visitNodes pkg (ast.walkFile f))))
  /\ (forall pre post, events = (pre ++ post)%list ->
        diagnostics pkg = (visitNodes pkg pre ++ visitNodes pkg post)%list)
  /\ (forall pre n,
        visitNodes pkg (pre ++ [n]) =
          (visitNodes pkg pre ++ visitNodes pkg [n])%list
        /\ (List.length (visitNodes pkg [n]) <= 1)%nat)
  /\ (forall pkgs results,
        parseDir_packages pkgs results =
        (Returned
           ((results
             ++ flat_map (fun p => map (resultLine p) (diagnostics p)) pkgs)
              %list, None),
         (results
          ++ flat_map (fun p => map (resultLine p) (diagnostics p)) pkgs)
           %list)).
Proof.
  intros events pass.
  assert (D : diagnostics pkg = reportsOf (Pkg_TypesInfo pkg) events).
  { unfold diagnostics. now rewrite scan_reportsOf. }
  destruct (reportsOf_qualifying pkg events) as [Q1 Q2].
  repeat match goal with |- _ /\ _ => split end.
  - reflexivity.
  - now rewrite D.
  - intros n Hq. rewrite visitNodes_one.
    rewrite qualifies_reportOf in Hq. cbn [pass scanPass analysis.TypesInfo] in Hq.
    destruct (reportOf (Pkg_TypesInfo pkg) n) as [d|] eqn:R; [|discriminate].
    exists d. split; [reflexivity|].
    destruct (reportOf_Some _ _ _ R) as [X [p [Op [Y [-> HP]]]]]. exact HP.
  - now rewrite D.
  - rewrite <- (length_map analysis.Pos), D, Q2. apply length_map.
  - rewrite D. unfold events, inspector.New. cbn [inspector.events].
    apply reportsOf_files.
  - intros f _ Hwf. rewrite visitNodes_reportsOf.
    apply reportsOf_sorted. exact (proj1 (walkFile_ascending f Hwf)).
  - intros pre post E. rewrite D, E, reportsOf_app.
    now rewrite !visitNodes_reportsOf.
  - intros pre n. rewrite !visitNodes_reportsOf, reportsOf_app.
    split; [reflexivity|].
    unfold reportsOf. cbn [flat_map].
    destruct (reportOf (Pkg_TypesInfo pkg) n); simpl; lia.
  - apply parseDir_packages_results.
Qed.

Lemma C8_witness :
  diagnostics sample.pkg2 =
  [ {| analysis.Pos := 20;
       analysis.Message := "comparing pointers to basic types: int and int" |};
    {| analysis.Pos := 35;
       analysis.Message := "comparing pointers to basic types: int and int" |} ]
  /\ StronglySorted Z.le
       (map analysis.Pos (visitNodes sample.pkg2 (ast.walkFile sample.file2)))
  /\ fst (parseDir_packages [example.pkg; sample.pkg2] []) =
     Returned
       ([ "example/main.go:7:5: comparing pointers to basic types: int and int"
          ++ newline;
          "p.go:3:9: comparing pointers to basic types: int and int"
          ++ newline;
          "p.go:4:9: comparing pointers to basic types: int and int"
          ++ newline ], None).
Proof.
  destruct (C8_diagnostics_in_source_order sample.pkg2)
    as [_ [_ [_ [_ [_ [H [Hsorted [_ [_ Hdir]]]]]]]]].
  split; [|split].
  - rewrite H. reflexivity.
  - apply Hsorted; [left; reflexivity|reflexivity].
  - rewrite Hdir. reflexivity.
Defined.

(* ================================================================== *)
(** ** Further properties of the analyzer *)


(** X3.  [run] reads the type information and the inspector of the pass and
    nothing else: two passes that agree on these, whatever their file
    set, their file list and their other results, report the same
    diagnostics and end the same way. *)
Theorem run_reads_info_and_inspector {S T : Type} (p : analysis.Pass S)
  (q : analysis.Pass T) :
  analysis.TypesInfo p = analysis.TypesInfo q ->
  analysis.ResultOf p inspect.Analyzer_Name
  = analysis.ResultOf q inspect.Analyzer_Name ->
  run (recording p) [] = run (recording q) [].
Proof.
  intros Hinfo Hres. unfold run, recording. cbn [analysis.ResultOf].
  rewrite Hres.
  destruct (analysis.ResultOf q inspect.Analyzer_Name) as [|insp|descr];
    try reflexivity.
  unfold bind. destruct insp as [nodes].
  rewrite !Preorder_run_func1. cbn [analysis.TypesInfo]. now rewrite Hinfo.
Qed.

Lemma run_reads_info_and_inspector_witness :
  run (recording
         (analysis.mkPass example.fset [example.file] example.info
            (fun _ => any_Inspector (inspector.New [example.file]))
            (fun _ => ret (S := nat) tt))) [] =
  run (recording
         (scanPass (mkPackage "other" (sample.fset token.EQL) [] example.info)
            (any_Inspector (inspector.New [example.file])))) [].
Proof.
  apply run_reads_info_and_inspector; reflexivity.
Defined.

(** X4.  No false positive: every diagnostic of a scan is the one of a binary
    expression that the traversal reaches, under one of the six
    operators, whose operands both have a pointer type with a basic
    pointee; it is positioned at the start of the left operand and its
    message names the two pointees. *)
Theorem diagnostics_sound (pkg : Package) (d : analysis.Diagnostic) :
  In d (diagnostics pkg) ->
  exists X p Op Y l r,
    In (ast.ExprNode (ast.BinaryExpr X p Op Y))
       (inspector.events (inspector.New (Syntax pkg)))
    /\ In Op comparisonOps
    /\ types.TypeOf (Pkg_TypesInfo pkg) X = Some (types.Pointer l)
    /\ types.TypeOf (Pkg_TypesInfo pkg) Y = Some (types.Pointer r)
    /\ isBasicType (Some l) = true
    /\ isBasicType (Some r) = true
    /\ d = {| analysis.Pos := ast.Pos X;
              analysis.Message :=
                "comparing pointers to basic types: "
                ++ types.TypeString l ++ " and " ++ types.TypeString r |}.
Proof.
  unfold diagnostics. rewrite scan_reportsOf. cbn [snd].
  unfold reportsOf. rewrite in_flat_map. intros [n [Hn Hd]].
  destruct (reportOf (Pkg_TypesInfo pkg) n) as [d'|] eqn:R; [|destruct Hd].
  destruct Hd as [<-|[]].
  destruct n as [|e| | | | | | |]; try discriminate.
  destruct e as [| | | | | | | | |X p Op Y]; try discriminate.
  unfold reportOf in R.
  destruct (isComparison Op) eqn:HOp; [|discriminate].
  apply isComparison_In in HOp.
  destruct (types.TypeOf (Pkg_TypesInfo pkg) X) as [tx|] eqn:HX;
    [|discriminate].
  destruct tx as [| l | | | | | | | | | |]; try discriminate.
  destruct (types.TypeOf (Pkg_TypesInfo pkg) Y) as [ty|] eqn:HY;
    [|discriminate].
  destruct ty as [| r | | | | | | | | | |]; try discriminate.
  exists X, p, Op, Y, l, r. unfold isBasicType.
  destruct (types.Underlying l); try discriminate.
  destruct (types.Underlying r); try discriminate.
  inversion R. repeat split; auto.
Qed.

Lemma diagnostics_sound_witness :
  exists X p Op Y l r,
    In (ast.ExprNode (ast.BinaryExpr X p Op Y))
       (inspector.events (inspector.New (Syntax example.pkg)))
    /\ In Op comparisonOps
    /\ types.TypeOf (Pkg_TypesInfo example.pkg) X = Some (types.Pointer l)
    /\ types.TypeOf (Pkg_TypesInfo example.pkg) Y = Some (types.Pointer r)
    /\ isBasicType (Some l) = true
    /\ isBasicType (Some r) = true
    /\ {| analysis.Pos := 78;
          analysis.Message :=
            "comparing pointers to basic types: int and int" |}
       = {| analysis.Pos := ast.Pos X;
            analysis.Message :=
              "comparing pointers to basic types: "
              ++ types.TypeString l ++ " and " ++ types.TypeString r |}.
Proof.
  apply (diagnostics_sound example.pkg). left. reflexivity.
Defined.

Lemma reportsOf_ext (i1 i2 : types.Info) (nodes : list ast.Node) :
  (forall n, In n nodes -> reportOf i1 n = reportOf i2 n) ->
  reportsOf i1 nodes = reportsOf i2 nodes.
Proof.
  induction nodes as [|n nodes IH]; intros H; [reflexivity|].
  unfold reportsOf in *. cbn [flat_map].
  rewrite (H n (or_introl eq_refl)), IH; [reflexivity|].
  intros m Hm. apply H. now right.
Qed.

(** X5.  The scan consults the type information at the operands of the
    comparisons of the unit and nowhere else: two packages with the same
    files, whose type information gives the same type to both operands of
    every binary expression under one of the six operators, get the same
    diagnostics. *)
Theorem diagnostics_depend_on_operand_types (pkg1 pkg2 : Package) :
  Syntax pkg1 = Syntax pkg2 ->
  (forall X p Op Y,
     In (ast.ExprNode (ast.BinaryExpr X p Op Y))
        (inspector.events (inspector.New (Syntax pkg1))) ->
     In Op comparisonOps ->
     types.TypeOf (Pkg_TypesInfo pkg1) X = types.TypeOf (Pkg_TypesInfo pkg2) X
     /\ types.TypeOf (Pkg_TypesInfo pkg1) Y
        = types.TypeOf (Pkg_TypesInfo pkg2) Y) ->
  diagnostics pkg1 = diagnostics pkg2.
Proof.
  intros Hfiles H. unfold diagnostics. rewrite !scan_reportsOf. cbn [snd].
  rewrite <- Hfiles. apply reportsOf_ext. intros n Hn.
  destruct n as [|e| | | | | | |]; try reflexivity.
  destruct e as [| | | | | | | | |X p Op Y]; try reflexivity.
  unfold reportOf. destruct (isComparison Op) eqn:HOp; [|reflexivity].
  apply isComparison_In in HOp.
  destruct (H X p Op Y Hn HOp) as [-> ->]. reflexivity.
Qed.

Lemma diagnostics_depend_on_operand_types_witness :
  diagnostics example.pkg =
  diagnostics
    (mkPackage "example" example.fset [example.file]
       (types.mkInfo
          (fun e => match e with
                    | ast.BinaryExpr _ _ _ _ => None
                    | _ => example.Types e
                    end)
          (fun _ => None) example.objects)).
Proof.
  apply diagnostics_depend_on_operand_types.
  - reflexivity.
  - intros X p Op Y Hin _. vm_compute in Hin.
    destruct Hin as [H|Hin]; [discriminate|].
    repeat (destruct Hin as [H|Hin];
            [first [discriminate | inversion H; split; reflexivity]|]).
    destruct Hin.
Defined.

Lemma NodeType_eqb_BinaryExpr (t : ast.NodeType) :
  ast.NodeType_eqb ast.T_BinaryExpr t = true <-> t = ast.T_BinaryExpr.
Proof. destruct t; simpl; split; congruence. Qed.

Lemma forEach_ext {S A : Type} (l : list A) (f g : A -> M S unit) :
  (forall a s, f a s = g a s) -> forall s, forEach l f s = forEach l g s.
Proof.
  intros H. induction l as [|a l IH]; intros s; cbn [forEach];
    [reflexivity|].
  unfold bind. rewrite H. destruct (g a s) as [u s']. apply IH.
Qed.

(** X6.  The type filter [run] hands to the inspector is an optimisation: the
    callback tests its node again, so with no filter at all, or with any
    filter that lets binary expressions through, the traversal does the
    same; with a filter that keeps them out, nothing is reported. *)
Theorem nodeFilter_is_redundant {S : Type} (pass : analysis.Pass S)
  (insp : inspector.Inspector) (filter : list ast.NodeType) (s : S) :
  (filter = [] \/ In ast.T_BinaryExpr filter ->
   inspector.Preorder insp filter (run_func1 pass) s =
   inspector.Preorder insp nodeFilter (run_func1 pass) s)
  /\ (filter <> [] -> ~ In ast.T_BinaryExpr filter ->
      inspector.Preorder insp filter (run_func1 pass) s = (tt, s)).
Proof.
  split.
  - intros Hf. unfold inspector.Preorder.
    apply forEach_ext. intros n s0. rewrite selected_run_func1.
    destruct n as [|e| | | | | | |];
      try (destruct (inspector.selected filter _); reflexivity).
    destruct e as [| | | | | | | | |X p Op Y];
      try (destruct (inspector.selected filter _); reflexivity).
    assert (Hsel : inspector.selected filter
                     (ast.ExprNode (ast.BinaryExpr X p Op Y)) = true).
    { destruct Hf as [->|Hin]; [reflexivity|].
      unfold inspector.selected. destruct filter as [|t ts]; [reflexivity|].
      cbn [ast.typeOf]. apply existsb_exists.
      exists ast.T_BinaryExpr. split; [exact Hin|reflexivity]. }
    now rewrite Hsel.
  - intros Hne Hnot. unfold inspector.Preorder.
    assert (F : forall l s0,
               forEach l
                 (fun n => if inspector.selected filter n
                           then run_func1 pass n else ret tt) s0 = (tt, s0)).
    { induction l as [|n l IH]; intros s0; cbn [forEach]; [reflexivity|].
      unfold bind.
      assert (E : (if inspector.selected filter n
                   then run_func1 pass n else ret tt) s0 = (tt, s0)).
      { destruct n as [|e| | | | | | |];
          try (destruct (inspector.selected filter _); reflexivity).
        destruct e as [| | | | | | | | |X p Op Y];
          try (destruct (inspector.selected filter _); reflexivity).
        destruct (inspector.selected filter
                    (ast.ExprNode (ast.BinaryExpr X p Op Y))) eqn:Hsel;
          [|reflexivity].
        exfalso. unfold inspector.selected in Hsel.
        destruct filter as [|t ts]; [now apply Hne|].
        cbn [ast.typeOf] in Hsel. apply existsb_exists in Hsel.
        destruct Hsel as [t' [Hin Heq]].
        apply NodeType_eqb_BinaryExpr in Heq. subst t'. now apply Hnot. }
      rewrite E. apply IH. }
    apply F.
Qed.

Lemma nodeFilter_is_redundant_witness :
  inspector.Preorder (inspector.New [example.file]) []
    (run_func1 (scanPass example.pkg any_nil)) [] =
  inspector.Preorder (inspector.New [example.file]) nodeFilter
    (run_func1 (scanPass example.pkg any_nil)) []
  /\ inspector.Preorder (inspector.New [example.file])
       [ast.T_Ident; ast.T_CallExpr]
       (run_func1 (scanPass example.pkg any_nil)) [] = (tt, []).
Proof.
  split.
  - apply (proj1 (nodeFilter_is_redundant (scanPass example.pkg any_nil)
                    (inspector.New [example.file]) [] [])).
    left. reflexivity.
  - apply (proj2 (nodeFilter_is_redundant (scanPass example.pkg any_nil)
                    (inspector.New [example.file])
                    [ast.T_Ident; ast.T_CallExpr] [])).
    + discriminate.
    + simpl. intros [H|[H|[]]]; discriminate.
Defined.

(** X7.  Scanning is additive over the file list: the diagnostics of a package
    are those of its first files followed by those of the files after
    them, under the same type information. *)
Theorem diagnostics_of_appended_files (name : string) (fset : token.FileSet)
  (files1 files2 : list ast.File) (info : types.Info) :
  diagnostics (mkPackage name fset (files1 ++ files2) info) =
  (diagnostics (mkPackage name fset files1 info)
   ++ diagnostics (mkPackage name fset files2 info))%list.
Proof.
  unfold diagnostics. rewrite !scan_reportsOf. cbn [snd Syntax Pkg_TypesInfo].
  unfold inspector.New. cbn [inspector.events].
  now rewrite flat_map_app, reportsOf_app.
Qed.

Lemma subexpr_walkExpr (c e : ast.Expr) :
  subexpr c e -> In (ast.ExprNode c) (ast.walkExpr e).
Proof.
  induction 1 as [|lp x rp _ IH|x sel _ IH|x lb index rb _ IH
                  |x lb index rb _ IH|f lp args rp _ IH
                  |f lp args rp a Ha _ IH|star x _ IH|p op x _ IH
                  |x p op y _ IH|x p op y _ IH].
  - destruct c; left; reflexivity.
  - right. exact IH.
  - right. apply in_or_app. now left.
  - right. apply in_or_app. now left.
  - right. apply in_or_app. now right.
  - right. apply in_or_app. now left.
  - right. apply in_or_app. right. apply in_flat_map. now exists a.
  - right. exact IH.
  - right. exact IH.
  - right. apply in_or_app. now left.
  - right. apply in_or_app. now right.
Qed.

Lemma reportsOf_In (info : types.Info) (nodes : list ast.Node)
  (n : ast.Node) (d : analysis.Diagnostic) :
  In n nodes -> reportOf info n = Some d -> In d (reportsOf info nodes).
Proof.
  intros Hn R. unfold reportsOf. apply in_flat_map. exists n.
  split; [exact Hn|]. rewrite R. now left.
Qed.

(** X8.  Nested comparisons are reported.  A comparison of two pointers
    to basic types that lies anywhere inside an expression, under
    logical or other operators, parentheses, calls, indexing, selectors
    or dereferences, has its diagnostic among those of the expression,
    and among those of every scan whose traversal goes through the
    expression. *)
Theorem nested_comparisons_are_reported
  (pkg : Package) (pre post : list ast.Node) (e X Y : ast.Expr)
  (p : token.Pos) (Op : token.Token) (l r : types.GoType)
  (lk rk : types.BasicKind) (ln rn : string) :
  inspector.events (inspector.New (Syntax pkg)) =
    (pre ++ ast.walkExpr e ++ post)%list ->
  subexpr (ast.BinaryExpr X p Op Y) e ->
  In Op comparisonOps ->
  types.TypeOf (Pkg_TypesInfo pkg) X = Some (types.Pointer l) ->
  types.TypeOf (Pkg_TypesInfo pkg) Y = Some (types.Pointer r) ->
  types.Underlying l = types.Basic lk ln ->
  types.Underlying r = types.Basic rk rn ->
  let d := {| analysis.Pos := ast.Pos X;
              analysis.Message :=
                "comparing pointers to basic types: "
                ++ types.TypeString l ++ " and " ++ types.TypeString r |} in
  In d (visitNodes pkg (ast.walkExpr e)) /\ In d (diagnostics pkg).
Proof.
  intros E Hsub Hop HX HY Hl Hr d.
  pose proof (reportOf_basic_pair (Pkg_TypesInfo pkg) X Y p Op l r
                lk rk ln rn Hop HX HY Hl Hr) as R.
  pose proof (subexpr_walkExpr _ _ Hsub) as Hin.
  split.
  - rewrite visitNodes_reportsOf.
    exact (reportsOf_In _ _ _ _ Hin R).
  - unfold diagnostics. rewrite scan_reportsOf, E. cbn [snd].
    apply (reportsOf_In _ _ (ast.ExprNode (ast.BinaryExpr X p Op Y)) _);
      [|exact R].
    apply in_or_app. right. apply in_or_app. now left.
Qed.

Lemma nested_comparisons_are_reported_witness :
  In {| analysis.Pos := 31;
        analysis.Message :=
          "comparing pointers to basic types: int and int" |}
     (diagnostics sample.pkg3).
Proof.
  apply (nested_comparisons_are_reported sample.pkg3
           (firstn 5 (inspector.events (inspector.New [sample.file3])))
           (skipn 13 (inspector.events (inspector.New [sample.file3])))
           sample.nested (example.ident 31 "a") (example.ident 36 "b")
           33 token.NEQ example.int_ example.int_
           types.Int types.Int "int" "int").
  - reflexivity.
  - apply subexpr_binary_y, subexpr_paren, subexpr_refl.
  - simpl; auto.
  - reflexivity.
  - reflexivity.
  - reflexivity.
  - reflexivity.
Defined.

Lemma parseDir_never_panics
  (packages_Load : string -> list Package * error) (dir : string) :
  parseDir packages_Load dir <> Panicked.
Proof.
  unfold parseDir. destruct (packages_Load dir) as [pkgs [e|]].
  - discriminate.
  - rewrite parseDir_packages_results. discriminate.
Qed.

(** X9.  [parseDir] never panics.  When the loader fails it returns no line
    and the loader's error, wrapped; otherwise it returns, without an
    error, the lines of the diagnostics of the packages, in the order of
    the packages.  The error it has for a failing analyzer never
    occurs. *)
Theorem parseDir_returns (packages_Load : string -> list Package * error)
  (dir : string) :
  (forall pkgs err, packages_Load dir = (pkgs, Some err) ->
     parseDir packages_Load dir =
     Returned ([], Some ("Failed to load packages: " ++ err)))
  /\ (forall pkgs, packages_Load dir = (pkgs, None) ->
        parseDir packages_Load dir =
        Returned
          (flat_map (fun p => map (resultLine p) (diagnostics p)) pkgs, None))
  /\ parseDir packages_Load dir <> Panicked
  /\ (forall results err,
        parseDir packages_Load dir = Returned (results, Some err) ->
        results = []
        /\ exists pkgs e, packages_Load dir = (pkgs, Some e)
                          /\ err = "Failed to load packages: " ++ e).
Proof.
  unfold parseDir.
  destruct (packages_Load dir) as [pkgs [e|]].
  - split; [|split; [|split]].
    + intros pkgs' err H. now inversion H.
    + intros pkgs' H. discriminate.
    + discriminate.
    + intros results err H. inversion H. split; [reflexivity|].
      now exists pkgs, e.
  - rewrite parseDir_packages_results. cbn [fst app].
    split; [|split; [|split]].
    + intros pkgs' err H. discriminate.
    + intros pkgs' H. now inversion H.
    + discriminate.
    + intros results err H. discriminate.
Qed.

Lemma parseDir_returns_witness :
  parseDir (fun _ => ([example.pkg; sample.pkg2], None)) "." =
  Returned
    (flat_map (fun p => map (resultLine p) (diagnostics p))
       [example.pkg; sample.pkg2], None)
  /\ parseDir (fun _ => ([], Some "no Go files")) "." =
     Returned ([], Some "Failed to load packages: no Go files").
Proof.
  split.
  - apply (proj1 (proj2 (parseDir_returns
                           (fun _ => ([example.pkg; sample.pkg2], None))
                           "."))).
    reflexivity.
  - apply (proj1 (parseDir_returns (fun _ => ([], Some "no Go files")) ".")
             []).
    reflexivity.
Defined.

(** X10.  [main] stops with the usage message unless it is given exactly one
    argument after the program name; given one, it returns normally
    whatever the loader does, also when loading fails, since it drops
    what [parseDir] returns. *)
Theorem main_terminates (packages_Load : string -> list Package * error)
  (Args : list string) :
  (List.length Args <> 2%nat ->
   main packages_Load Args = Fatal "Usage: ptrcmp <directory>")
  /\ (List.length Args = 2%nat -> main packages_Load Args = Normal).
Proof.
  unfold main. split; intros H.
  - apply Nat.eqb_neq in H. now rewrite H.
  - apply Nat.eqb_eq in H. rewrite H. cbn [negb].
    pose proof (parseDir_never_panics packages_Load
                  (nth 1 Args EmptyString)) as Hnp.
    destruct (parseDir packages_Load (nth 1 Args EmptyString));
      [reflexivity|now destruct Hnp].
Qed.

Lemma main_terminates_witness :
  main (fun _ => ([], Some "no Go files")) ["ptrcmp"; "./missing"] = Normal
  /\ main (fun _ => ([example.pkg], None)) ["ptrcmp"]
     = Fatal "Usage: ptrcmp <directory>".
Proof.
  split.
  - apply (proj2 (main_terminates (fun _ => ([], Some "no Go files"))
                    ["ptrcmp"; "./missing"])).
    reflexivity.
  - apply (proj1 (main_terminates (fun _ => ([example.pkg], None))
                    ["ptrcmp"])).
    simpl. lia.
Defined.

Lemma fold_variant_Report (pkg : Package) (ds : list analysis.Diagnostic)
  (stdout : list string) :
  fold_left (fun s d => snd (variant.parseDir_Report pkg d s)) ds stdout =
  (stdout ++ map (resultLine pkg) ds)%list.
Proof.
  revert stdout; induction ds as [|d ds IH]; intros stdout; simpl.
  - now rewrite app_nil_r.
  - rewrite IH. unfold resultLine. now rewrite <- app_assoc.
Qed.

Lemma variant_run_Preorder {S : Type} (pass : analysis.Pass S)
  (nodes : list ast.Node) (s : S) :
  inspector.Preorder (inspector.mkInspector nodes) nodeFilter
    (fun n => variant.Visit pass n) s =
  (tt, fold_left (fun s d => snd (analysis.Report pass d s))
         (reportsOf (analysis.TypesInfo pass) nodes) s).
Proof.
  rewrite <- Preorder_run_func1. unfold inspector.Preorder.
  apply forEach_ext. intros n s0.
  destruct (inspector.selected nodeFilter n); reflexivity.
Qed.

(** The loop of the variant's [parseDir] ends normally and has printed
    the lines of the diagnostics of each package, package after
    package, after what was on standard output before. *)
Lemma variant_parseDir_packages_prints (pkgs : list Package)
  (stdout : list string) :
  variant.parseDir_packages pkgs stdout =
  (Normal,
   (stdout ++ flat_map (fun p => map (resultLine p) (diagnostics p)) pkgs)
     %list).
Proof.
  revert stdout; induction pkgs as [|pkg pkgs IH]; intros stdout.
  - simpl. now rewrite app_nil_r.
  - cbn [variant.parseDir_packages inspect.Analyzer_Run analysis.Files
         flat_map].
    unfold bind, variant.run, setResultOf.
    cbn [analysis.ResultOf]. rewrite String.eqb_refl.
    unfold bind. destruct (inspector.New (Syntax pkg)) as [nodes] eqn:E.
    rewrite variant_run_Preorder.
    cbn [analysis.TypesInfo analysis.Report ret].
    rewrite fold_variant_Report, IH, <- app_assoc.
    unfold diagnostics. rewrite scan_reportsOf, E. reflexivity.
Qed.

(** X11.  The variant's [parseDir] prints what [parseDir] of [main.go] returns:
    when the latter returns lines without an error, the former writes
    exactly these lines to standard output, in the same order, and ends
    normally; when the loader fails, it is fatal with the loader's error
    and prints nothing. *)
Theorem variant_parseDir_prints_results
  (packages_Load : string -> list Package * error) (dir : string)
  (stdout : list string) :
  (forall lines,
     parseDir packages_Load dir = Returned (lines, None) ->
     variant.parseDir packages_Load dir stdout
     = (Normal, (stdout ++ lines)%list))
  /\ (forall pkgs err, packages_Load dir = (pkgs, Some err) ->
        variant.parseDir packages_Load dir stdout
        = (Fatal ("Failed to load packages: " ++ err), stdout)).
Proof.
  unfold parseDir, variant.parseDir.
  destruct (packages_Load dir) as [pkgs [e|]]; split.
  - intros lines H. discriminate.
  - intros pkgs' err H. now inversion H.
  - intros lines H. rewrite parseDir_packages_results in H. cbn [fst] in H.
    inversion H. cbn [app]. apply variant_parseDir_packages_prints.
  - intros pkgs' err H. discriminate.
Qed.

Lemma variant_parseDir_prints_results_witness :
  variant.parseDir (fun _ => ([example.pkg], None)) "./example" [] =
  (Normal,
   ["example/main.go:7:5: comparing pointers to basic types: int and int"
    ++ newline])
  /\ variant.parseDir (fun _ => ([], Some "no Go files")) "./example" [] =
     (Fatal "Failed to load packages: no Go files", []).
Proof.
  split.
  - apply (proj1 (variant_parseDir_prints_results
                    (fun _ => ([example.pkg], None)) "./example" [])).
    reflexivity.
  - apply (proj2 (variant_parseDir_prints_results
                    (fun _ => ([], Some "no Go files")) "./example" []) []).
    reflexivity.
Defined.

(** X12.  The variant's [main] stops with the usage message, printing nothing,
    unless it is given exactly one argument after the program name;
    given a directory that loads, it prints the line of every diagnostic
    of every package and ends normally. *)
Theorem variant_main_prints (packages_Load : string -> list Package * error)
  (Args : list string) (stdout : list string) :
  (List.length Args <> 2%nat ->
   variant.main packages_Load Args stdout
   = (Fatal "Usage: ptrcmp <directory>", stdout))
  /\ (forall prog dir pkgs,
        Args = [prog; dir] -> packages_Load dir = (pkgs, None) ->
        variant.main packages_Load Args stdout =
        (Normal,
         (stdout
          ++ flat_map (fun p => map (resultLine p) (diagnostics p)) pkgs)
           %list)).
Proof.
  unfold variant.main. split.
  - intros H. apply Nat.eqb_neq in H. now rewrite H.
  - intros prog dir pkgs -> H. cbn [List.length Nat.eqb negb nth].
    unfold variant.parseDir. rewrite H.
    apply variant_parseDir_packages_prints.
Qed.

Lemma variant_main_prints_witness :
  variant.main (fun _ => ([example.pkg], None)) ["ptrcmp"; "./example"] [] =
  (Normal,
   ["example/main.go:7:5: comparing pointers to basic types: int and int"
    ++ newline])
  /\ variant.main (fun _ => ([example.pkg], None)) [] [] =
     (Fatal "Usage: ptrcmp <directory>", []).
Proof.
  split.
  - apply (proj2 (variant_main_prints (fun _ => ([example.pkg], None))
                    ["ptrcmp"; "./example"] [])
             "ptrcmp" "./example" [example.pkg]); reflexivity.
  - apply (proj1 (variant_main_prints (fun _ => ([example.pkg], None))
                    [] [])).
    simpl. lia.
Defined.

(** X13.  [getUnderlyingType] removes exactly one pointer: on an expression
    that [isPointerType] accepts, wrapping its answer in a pointer gives
    back the type of the expression; on one that it rejects, the answer
    is the type of the expression itself; and the answer is nil only for
    an expression without a type. *)
Theorem getUnderlyingType_removes_one_pointer {S : Type}
  (pass : analysis.Pass S) (e : ast.Expr) :
  (isPointerType pass e = true ->
   types.TypeOf (analysis.TypesInfo pass) e =
   option_map types.Pointer (getUnderlyingType pass e))
  /\ (isPointerType pass e = false ->
      getUnderlyingType pass e = types.TypeOf (analysis.TypesInfo pass) e)
  /\ (getUnderlyingType pass e = None <->
      types.TypeOf (analysis.TypesInfo pass) e = None).
Proof.
  unfold isPointerType, getUnderlyingType.
  destruct (types.TypeOf (analysis.TypesInfo pass) e) as [t|].
  - destruct t; cbn [types.asPointer option_map];
      (split; [|split; [|split]]);
      try reflexivity; try discriminate; intros; try discriminate;
      reflexivity.
  - split; [|split; [|split]]; try reflexivity; discriminate.
Qed.

Lemma getUnderlyingType_removes_one_pointer_witness :
  types.TypeOf example.info (example.ident 78 "one") =
  option_map types.Pointer
    (getUnderlyingType (scanPass example.pkg any_nil)
       (example.ident 78 "one"))
  /\ getUnderlyingType (scanPass example.pkg any_nil)
       (ast.StarExpr 185 (example.ident 186 "one"))
     = types.TypeOf example.info (ast.StarExpr 185 (example.ident 186 "one")).
Proof.
  split.
  - apply (proj1 (getUnderlyingType_removes_one_pointer
                    (scanPass example.pkg any_nil) (example.ident 78 "one"))).
    reflexivity.
  - apply (proj1 (proj2 (getUnderlyingType_removes_one_pointer
                           (scanPass example.pkg any_nil)
                           (ast.StarExpr 185 (example.ident 186 "one"))))).
    reflexivity.
Defined.

Lemma Underlying_idempotent (t : types.GoType) :
  types.Underlying (types.Underlying t) = types.Underlying t.
Proof. induction t; simpl; auto. Qed.

(** X14.  [isBasicType] sees through names: it gives the same answer for a
    type and for its underlying type, so a type declared from another
    through any number of names and aliases is basic exactly when the
    other is. *)
Theorem isBasicType_sees_through_names (t : types.GoType) (name : string) :
  isBasicType (Some t) = isBasicType (Some (types.Underlying t))
  /\ isBasicType (Some (types.Named name t)) = isBasicType (Some t)
  /\ isBasicType (Some (types.Alias name t)) = isBasicType (Some t)
  /\ (isBasicType (Some t) = true <->
      exists kind n, types.Underlying t = types.Basic kind n).
Proof.
  unfold isBasicType. rewrite Underlying_idempotent.
  split; [reflexivity|]. split; [reflexivity|]. split; [reflexivity|].
  destruct (types.Underlying t); simpl; split;
    try discriminate; try (intros [k [n H]]; discriminate).
  - intros _. now eexists; eexists.
  - reflexivity.
Qed.
